(** * Law checking for [returns] containers: a model of
      [returns/contrib/hypothesis/laws.py]

    The module publishes one property-based test per law of a container
    type and, while such a test runs, rebinds entries of hypothesis'
    process-wide table [types._global_type_lookup].  The development
    below embeds the module function by function:

    - classes, type expressions, strategies and the lookup table;
    - a state-and-exception monad over the table, in which the four
      generator-based context managers are written with their body as
      an argument (the body stands where the source has [yield]);
    - the factories that the context managers bind;
    - the module namespace that [check_all_laws] writes into.

    The property-testing engine itself (drawing, resolution of a type
    through the table, the behaviour of drawn functions) is not part of
    the module and is taken as a parameter wherever a statement depends
    on it. *)

From Stdlib Require Import String Ascii List ZArith Bool Lia.
From stdpp Require Import base gmap strings list fin_maps.

Set Warnings "-register-all,-clear-no-such-hyp".
Local Open Scope string_scope.
Local Open Scope list_scope.

(** ** Classes and type expressions *)

(** A class object, as far as the module looks at it: [__module__]
    (read through [getattr(base_type, '__module__', '')], hence
    optional) and [__qualname__].  Two class objects with the same
    module and qualified name are not distinguished. *)
Record pyclass := PyClass {
  cls_module : option string;
  cls_qualname : string
}.

#[global] Instance pyclass_eq_dec : EqDecision pyclass.
Proof. solve_decision. Defined.

#[global] Instance pyclass_countable : Countable pyclass.
Proof.
  refine (inj_countable' (fun c => (cls_module c, cls_qualname c))
                         (fun p => PyClass p.1 p.2) _).
  by intros [].
Defined.

(** [getattr(base_type, '__module__', '')] *)
Definition getattr_module (c : pyclass) : string :=
  match cls_module c with
  | Some m => m
  | None => ""
  end.

(** The three interfaces the module imports by name. *)
Definition ApplicativeN : pyclass :=
  PyClass (Some "returns.interfaces.applicative") "ApplicativeN".
Definition ResultLikeN : pyclass :=
  PyClass (Some "returns.interfaces.specific.result") "ResultLikeN".
Definition MaybeLikeN : pyclass :=
  PyClass (Some "returns.interfaces.specific.maybe") "MaybeLikeN".

(** A law: [law.name] and [law.definition] (the latter opaque here). *)
Record Law := MkLaw {
  law_name : string;
  law_definition : nat
}.

(** A [Type[Lawful]]: the class itself, the rest of its [__mro__],
    whether [getattr(container_type, '__init__', None)] is truthy, and
    the items of the dictionary returned by [container_type.laws()], in
    iteration order. *)
Record Lawful := MkLawful {
  ct_class : pyclass;
  ct_bases : list pyclass;
  ct_init : bool;
  ct_laws : list (pyclass * list Law)
}.

Definition mro (ct : Lawful) : list pyclass := ct_class ct :: ct_bases ct.

(** [issubclass(container_type, interface)] for ordinary classes:
    membership in the method-resolution order. *)
Definition issubclass (ct : Lawful) (interface : pyclass) : bool :=
  bool_decide (interface ∈ mro ct).

(** Type expressions handed to a factory as [thing]: a class, a type
    variable, or a [Callable[...]] alias with its [__args__]. *)
Inductive tyexpr :=
  | TyClass (c : pyclass)
  | TyVar (name : string)
  | TyCallable (args : list tyexpr).

(** Keys of [types._global_type_lookup] that the module touches:
    [typing.Callable], [typing.TypeVar] and classes. *)
Inductive regkey :=
  | KCallable
  | KTypeVar
  | KClass (c : pyclass).

#[global] Instance regkey_eq_dec : EqDecision regkey.
Proof. solve_decision. Defined.

#[global] Instance regkey_countable : Countable regkey.
Proof.
  refine (inj_countable'
    (fun k => match k with
              | KCallable => inl true
              | KTypeVar => inl false
              | KClass c => inr c
              end)
    (fun s => match s with
              | inl true => KCallable
              | inl false => KTypeVar
              | inr c => KClass c
              end) _).
  by intros [].
Defined.

(** ** Values and strategies *)

Inductive pyfloat :=
  | FNaN
  | FInf (negative : bool)
  | FFinite (mantissa exponent : Z).

(** Values a strategy may produce.  [VObject] is an instance of a class
    with its own [__eq__]; the flag says what [x == x] answers on it. *)
Inductive pyval :=
  | VNone
  | VBool (b : bool)
  | VInt (z : Z)
  | VFloat (f : pyfloat)
  | VStr (s : string)
  | VObject (id : nat) (eq_reflexive : bool).

(** The truth value of [inner == inner] for one object [inner]. *)
Definition self_equal (inner : pyval) : bool :=
  match inner with
  | VFloat FNaN => false
  | VObject _ eq_reflexive => eq_reflexive
  | _ => true
  end.

(** The two shapes of [like] in [pure_functions]:
    [lambda: None] and [lambda *args, **kwargs: None]. *)
Inductive like_sig :=
  | LikeNullary
  | LikeVariadic.

(** Whether a call with [nargs] positional and [nkwargs] keyword
    arguments binds to the signature. *)
Definition accepts (like : like_sig) (nargs nkwargs : nat) : bool :=
  match like with
  | LikeNullary => (nargs =? 0)%nat && (nkwargs =? 0)%nat
  | LikeVariadic => true
  end.

(** What [st.builds] is applied to. *)
Inductive build_target :=
  | RawInit (ct : Lawful)
  | FromValue (ct : Lawful)
  | FromFailure (ct : Lawful)
  | FromOptional (ct : Lawful)
  | LawDefinition (law : Law).

(** Strategy expressions, one constructor per engine call the module
    makes; [SOpaque] stands for a strategy the engine had of its own. *)
Inductive strategy :=
  | SResolveTypeVar (thing : tyexpr)
  | SFromType (thing : tyexpr)
  | SBuilds (target : build_target)
  | SOneOf (alternatives : list strategy)
  | SFilter (condition : pyval -> bool) (base : strategy)
  | SFunctions (like : like_sig) (returns : strategy) (pure : bool)
  | SOpaque (id : nat).

(** ** Exceptions and the table monad *)

Inductive exn :=
  | KeyError (k : regkey)
  | RuntimeError (msg : string)
  | AttributeError
  | IndexError
  | Failure (id : nat).

Inductive outcome (A : Type) :=
  | Ok (a : A)
  | Raise (e : exn).
Arguments Ok {A} a.
Arguments Raise {A} e.

(** An entry of the table: a strategy, or a callable from the requested
    type to a strategy. *)
Inductive entry :=
  | Strat (s : strategy)
  | Resolver (factory : tyexpr -> outcome strategy).

Abbreviation registry := (gmap regkey entry).

(** Code running against [types._global_type_lookup]. *)
Definition M (A : Type) : Type := registry -> outcome A * registry.

Definition ret {A} (a : A) : M A := fun r => (Ok a, r).

Definition raise {A} (e : exn) : M A := fun r => (Raise e, r).

Definition bind {A B} (m : M A) (k : A -> M B) : M B :=
  fun r =>
    match m r with
    | (Ok a, r') => k a r'
    | (Raise e, r') => (Raise e, r')
    end.

Declare Scope py_scope.
Delimit Scope py_scope with py.
Notation "x <- m ;; k" := (bind m (fun x => k))
  (at level 100, m at next level, right associativity) : py_scope.
Notation "m ;; k" := (bind m (fun _ => k))
  (at level 100, right associativity) : py_scope.
Local Open Scope py_scope.

(** [for x in xs: f(x)] *)
Fixpoint for_each {A} (xs : list A) (f : A -> M unit) : M unit :=
  match xs with
  | [] => ret tt
  | x :: rest => f x ;; for_each rest f
  end.

(** [key in types._global_type_lookup] *)
Definition contains (k : regkey) : M bool :=
  fun r => (Ok (bool_decide (is_Some (r !! k))), r).

(** [types._global_type_lookup[key]] *)
Definition getitem (k : regkey) : M entry :=
  fun r =>
    match r !! k with
    | Some e => (Ok e, r)
    | None => (Raise (KeyError k), r)
    end.

(** [types._global_type_lookup.pop(key)] *)
Definition pop (k : regkey) : M entry :=
  fun r =>
    match r !! k with
    | Some e => (Ok e, delete k r)
    | None => (Raise (KeyError k), r)
    end.

(** [st.register_type_strategy(key, entry)]: the module only ever passes
    a callable or an entry it read from the table, which the engine
    accepts and stores. *)
Definition register_type_strategy (k : regkey) (e : entry) : M unit :=
  fun r => (Ok tt, <[k := e]> r).

(** ** Settings and factories *)

(** [_Settings]: what the end user passes to [check_all_laws]. *)
Record _Settings := Mk_Settings {
  settings_kwargs : list (string * pyval);
  use_init : bool
}.

(** [_create_container_factory]: the closure [factory] it returns.  The
    list [strategies] is built by the four conditional appends of the
    source, in their order, and handed to [st.one_of]. *)
Definition _create_container_factory (container_type : Lawful)
    (use_init : bool) : tyexpr -> outcome strategy :=
  fun type_ =>
    let strategies := [] in
    let strategies :=
      if use_init && ct_init container_type
      then strategies ++ [SBuilds (RawInit container_type)]
      else strategies in
    let strategies :=
      if issubclass container_type ApplicativeN
      then strategies ++ [SBuilds (FromValue container_type)]
      else strategies in
    let strategies :=
      if issubclass container_type ResultLikeN
      then strategies ++ [SBuilds (FromFailure container_type)]
      else strategies in
    let strategies :=
      if issubclass container_type MaybeLikeN
      then strategies ++ [SBuilds (FromOptional container_type)]
      else strategies in
    Ok (SOneOf strategies).

(** The closure [factory] of [pure_functions].  [thing.__args__] exists
    on a [Callable] alias only; [thing.__args__[-1]] needs it
    non-empty. *)
Definition pure_functions_factory (thing : tyexpr) : outcome strategy :=
  match thing with
  | TyCallable args =>
      let like :=
        if (length args =? 1)%nat then LikeNullary else LikeVariadic in
      match last args with
      | Some return_type =>
          Ok (SFunctions like (SFromType return_type) true)
      | None => Raise IndexError
      end
  | _ => Raise AttributeError
  end.

(** The closure [factory] of [type_vars]. *)
Definition type_vars_factory (thing : tyexpr) : outcome strategy :=
  let type_strategies := [SResolveTypeVar thing] in
  Ok (SFilter (fun inner => self_equal inner) (SOneOf type_strategies)).

(** ** The context managers

    Each is a generator decorated with [contextmanager] that has no
    [try] around its [yield].  Leaving the [with] block normally
    resumes the generator after the [yield]; leaving it with an
    exception raises that exception at the [yield], which nothing in
    the generator catches, so the statements after the [yield] are
    skipped and the exception goes on to the caller.  That is [bind]:
    the body is sequenced between the statements before and after the
    [yield]. *)

(** [maybe_register_container] *)
Definition maybe_register_container {A} (container_type : Lawful)
    (use_init : bool) (body : M A) : M A :=
  known <- contains (KClass (ct_class container_type)) ;;
  let unknown_container := negb known in
  (if unknown_container
   then register_type_strategy (KClass (ct_class container_type))
          (Resolver (_create_container_factory container_type use_init))
   else ret tt) ;;
  result <- body ;;
  (if unknown_container
   then (pop (KClass (ct_class container_type)) ;; ret tt)
   else ret tt) ;;
  ret result.

(** The set comprehension [our_interfaces].  A set has no repeated
    element; its iteration order is not fixed by the language and is
    taken here to be the order of the method-resolution order. *)
Definition our_interfaces (container_type : Lawful) : list pyclass :=
  remove_dups
    (List.filter
       (fun base_type => String.prefix "returns." (getattr_module base_type))
       (mro container_type)).

(** [container_strategies] *)
Definition container_strategies {A} (container_type : Lawful)
    (settings : _Settings) (body : M A) : M A :=
  for_each (our_interfaces container_type) (fun interface =>
    register_type_strategy (KClass interface)
      (Resolver (_create_container_factory container_type
                   (use_init settings)))) ;;
  result <- maybe_register_container container_type (use_init settings)
              body ;;
  for_each (our_interfaces container_type) (fun interface =>
    pop (KClass interface) ;; ret tt) ;;
  ret result.

(** [pure_functions] *)
Definition pure_functions {A} (body : M A) : M A :=
  used <- getitem KCallable ;;
  register_type_strategy KCallable (Resolver pure_functions_factory) ;;
  result <- body ;;
  pop KCallable ;;
  register_type_strategy KCallable used ;;
  ret result.

(** [type_vars] *)
Definition type_vars {A} (body : M A) : M A :=
  used <- getitem KTypeVar ;;
  register_type_strategy KTypeVar (Resolver type_vars_factory) ;;
  result <- body ;;
  pop KTypeVar ;;
  register_type_strategy KTypeVar used ;;
  ret result.

(** ** Running one law *)

(** [sys.version_info[:2]] and the tuple comparison [_pyversion < (3, 7)]. *)
Definition version_lt (v w : nat * nat) : bool :=
  (v.1 <? w.1)%nat || ((v.1 =? w.1)%nat && (v.2 <? w.2)%nat).

Definition python36_message : string :=
  "Hypothesis does not support several important " +:+
  "typing features on python3.6, and earlier versions. " +:+
  "Please update to at least python3.7".

(** [st.DataObject]: its [draw] method, which belongs to the engine. *)
Record DataObject := MkDataObject {
  draw : strategy -> M unit
}.

(** [_run_law]: the closure [factory] it returns, with the module
    global [_pyversion] as a parameter. *)
Definition _run_law (_pyversion : nat * nat) (container_type : Lawful)
    (law : Law) (settings : _Settings) : DataObject -> M unit :=
  fun source =>
    if version_lt _pyversion (3, 7)%nat
    then raise (RuntimeError python36_message)
    else
      type_vars
        (pure_functions
           (container_strategies container_type settings
              (draw source (SBuilds (LawDefinition law))))).

(** ** Publishing the tests *)

(** [str.lower] on ASCII text: [A]..[Z] move to [a]..[z], every other
    byte stays. *)
Definition is_upper (c : ascii) : bool :=
  let n := nat_of_ascii c in
  (65 <=? n)%nat && (n <=? 90)%nat.

Definition ascii_lower (c : ascii) : ascii :=
  if is_upper c then ascii_of_nat (nat_of_ascii c + 32) else c.

Fixpoint lower (s : string) : string :=
  match s with
  | EmptyString => EmptyString
  | String c rest => String (ascii_lower c) (lower rest)
  end.

(** Whether a string holds an upper-case ASCII letter. *)
Fixpoint has_upper (s : string) : bool :=
  match s with
  | EmptyString => false
  | String c rest => is_upper c || has_upper rest
  end.

(** ['test_{container}_{interface}_{name}'.format(...)] with the three
    keyword arguments of the source. *)
Definition test_name (container_type : Lawful) (interface : pyclass)
    (law : Law) : string :=
  let container := lower (cls_qualname (ct_class container_type)) in
  let interface := lower (cls_qualname interface) in
  let name := law_name law in
  "test_" +:+ container +:+ "_" +:+ interface +:+ "_" +:+ name.

(** The function object built by [given(st.data())(settings(...)(...))]:
    its [__name__], what the wrapped [_run_law] closure holds, the
    engine settings, and the pytest marks put on it. *)
Record test_function := MkTest {
  tf_name : string;
  tf_container : Lawful;
  tf_law : Law;
  tf_settings : _Settings;
  tf_marks : list string
}.

(** One execution of the check inside a published test. *)
Definition run_check (_pyversion : nat * nat) (test : test_function)
    : DataObject -> M unit :=
  _run_law _pyversion (tf_container test) (tf_law test) (tf_settings test).

(** The module that called [check_all_laws]: its namespace, and the
    history of the [setattr] calls made on it, oldest first. *)
Record py_module := MkModule {
  mod_dict : gmap string test_function;
  mod_setattr_calls : list (string * test_function)
}.

Definition setattr (module : py_module) (name : string)
    (value : test_function) : py_module :=
  {| mod_dict := <[name := value]> (mod_dict module);
     mod_setattr_calls := mod_setattr_calls module ++ [(name, value)] |}.

(** [pytest.mark.returns_lawful(test_function)] *)
Definition mark_returns_lawful (test : test_function) : test_function :=
  {| tf_name := tf_name test;
     tf_container := tf_container test;
     tf_law := tf_law test;
     tf_settings := tf_settings test;
     tf_marks := "returns_lawful" :: tf_marks test |}.

(** [_create_law_test_case]; [module] is what [inspect.getmodule] finds
    two frames up, the caller of [check_all_laws] (a caller for which it
    finds no module, such as a doctest, is outside the model). *)
Definition _create_law_test_case (container_type : Lawful)
    (interface : pyclass) (law : Law) (settings : _Settings)
    (module : py_module) : py_module :=
  let test_function :=
    {| tf_name := test_name container_type interface law;
       tf_container := container_type;
       tf_law := law;
       tf_settings := settings;
       tf_marks := [] |} in
  setattr module (tf_name test_function) (mark_returns_lawful test_function).

(** [check_all_laws] *)
Definition check_all_laws (container_type : Lawful)
    (settings_kwargs : option (list (string * pyval))) (use_init : bool)
    (module : py_module) : py_module :=
  let settings :=
    Mk_Settings (match settings_kwargs with
                 | Some kwargs => kwargs
                 | None => []
                 end) use_init in
  foldl (fun module '(interface, laws) =>
           foldl (fun module law =>
                    _create_law_test_case container_type interface law
                      settings module)
                 module laws)
        module (ct_laws container_type).

(** The (interface, law) pairs of a container in iteration order, and
    their number: the laws of the whole capability chain. *)
Definition law_pairs (container_type : Lawful) : list (pyclass * Law) :=
  flat_map (fun '(interface, laws) => map (pair interface) laws)
           (ct_laws container_type).

Definition total_laws (container_type : Lawful) : nat :=
  sum_list (map (fun '(_, laws) => length laws) (ct_laws container_type)).

(** The test published for one pair. *)
Definition published_test (container_type : Lawful) (settings : _Settings)
    (p : pyclass * Law) : string * test_function :=
  (test_name container_type p.1 p.2,
   {| tf_name := test_name container_type p.1 p.2;
      tf_container := container_type;
      tf_law := p.2;
      tf_settings := settings;
      tf_marks := ["returns_lawful"] |}).

(** ** Sample data used by the examples *)

Module Sample.

Definition Mappable : pyclass :=
  PyClass (Some "returns.interfaces.mappable") "Mappable".

Definition box_class : pyclass := PyClass (Some "test_box") "Box".

Definition identity : Law := MkLaw "identity" 0.

(** A law whose function name is not written in lower case. *)
Definition Identity_Law : Law := MkLaw "Identity_Law" 1.

(** A container that is only mappable: no [from_value],
    [from_failure] or [from_optional]. *)
Definition Box : Lawful :=
  {| ct_class := box_class;
     ct_bases := [Mappable; PyClass (Some "builtins") "object"];
     ct_init := true;
     ct_laws := [(Mappable, [identity])] |}.

Definition empty_module : py_module := MkModule ∅ [].

(** The table the engine starts with, as far as the module reads it. *)
Definition engine_table : registry :=
  <[KCallable := Strat (SOpaque 0)]> (<[KTypeVar := Strat (SOpaque 1)]> ∅).

Definition no_settings : _Settings := Mk_Settings [] false.

(** An engine whose unconstrained type variables resolve to a
    not-a-number float, an integer or an object unequal to itself. *)
Definition small_engine (s : strategy) (v : pyval) : Prop :=
  match s with
  | SResolveTypeVar _ => v ∈ [VFloat FNaN; VInt 1; VObject 0 false]
  | _ => False
  end.

(** A stand-in for the engine's function values: a drawn function is a
    table from argument lists to results; calling it looks the
    arguments up and touches nothing else. *)
Definition table_function : Type := list pyval -> pyval.

Definition table_drawn_from (s : strategy) (f : table_function) : Prop :=
  match s with
  | SFunctions _ _ _ => True
  | _ => False
  end.

Definition table_invoke (f : table_function) (args : list pyval)
    (kwargs : list (string * pyval)) (world : nat) : outcome pyval * nat :=
  (Ok (f args), world).

(** A data object whose [draw] does nothing. *)
Definition quiet_source : DataObject := MkDataObject (fun _ => ret tt).

(** A data object that stands for the engine refusing to draw: it looks
    up [Box] in the table, calls the callable bound there, and raises
    when the answer is the empty union. *)
Definition refusing_source : DataObject :=
  MkDataObject (fun _ r =>
    match r !! KClass box_class with
    | Some (Resolver factory) =>
        match factory (TyClass box_class) with
        | Ok (SOneOf []) => (Raise (Failure 1), r)
        | _ => (Ok tt, r)
        end
    | _ => (Ok tt, r)
    end).

(** A body that fails, as a falsified law or an engine error does. *)
Definition failing_body : M unit := raise (Failure 0).

(** A table in which [Box] is bound already. *)
Definition box_table : registry :=
  <[KClass box_class := Strat (SOpaque 3)]> engine_table.

(** A table in which the user has bound a strategy to [Mappable]. *)
Definition user_table : registry :=
  <[KClass Mappable := Strat (SOpaque 2)]> engine_table.

End Sample.

(** ** Tables and predicates used in the statements *)

(** A body that leaves the table as it found it whenever it completes
    normally. *)
Definition restores {A} (body : M A) : Prop :=
  forall r a r', body r = (Ok a, r') -> r' = r.

(** The table after [for interface in ...: register_type_strategy], and
    after [for interface in ...: pop]. *)
Definition bind_classes (e : entry) (ks : list pyclass) (r : registry)
    : registry :=
  foldl (fun r i => <[KClass i := e]> r) r ks.

Definition unbind_classes (ks : list pyclass) (r : registry) : registry :=
  foldl (fun r i => delete (KClass i) r) r ks.

(** The table the body of [container_strategies] starts in, before the
    default-container scope adds its own binding. *)
Definition interfaces_bound (container_type : Lawful) (settings : _Settings)
    (r : registry) : registry :=
  bind_classes
    (Resolver (_create_container_factory container_type (use_init settings)))
    (our_interfaces container_type) r.

(** The table after the first statements of [maybe_register_container]. *)
Definition container_bound (container_type : Lawful) (use_init : bool)
    (r : registry) : registry :=
  match r !! KClass (ct_class container_type) with
  | Some _ => r
  | None =>
      <[KClass (ct_class container_type) :=
          Resolver (_create_container_factory container_type use_init)]> r
  end.

(** The table in which the body of [container_strategies] runs. *)
Definition scope_table (container_type : Lawful) (settings : _Settings)
    (r : registry) : registry :=
  container_bound container_type (use_init settings)
    (interfaces_bound container_type settings r).

(** The table in which [_run_law] draws. *)
Definition draw_table (container_type : Lawful) (settings : _Settings)
    (r : registry) : registry :=
  scope_table container_type settings
    (<[KCallable := Resolver pure_functions_factory]>
       (<[KTypeVar := Resolver type_vars_factory]> r)).

(** A run of [setattr] calls, oldest first. *)
Definition publish_all (tests : list (string * test_function))
    (module : py_module) : py_module :=
  foldl (fun module test => setattr module test.1 test.2) module tests.

(** What the engine is taken to guarantee about composed strategies:
    [st.one_of] draws from one of its alternatives, [s.filter(p)] draws
    from [s] and keeps the values [p] accepts; what the remaining
    strategies produce is the parameter [engine]. *)
Definition engine_primitive (s : strategy) : bool :=
  match s with
  | SOneOf _ | SFilter _ _ => false
  | _ => true
  end.

Inductive can_draw (engine : strategy -> pyval -> Prop)
    : strategy -> pyval -> Prop :=
  | draw_one_of alternatives s v :
      s ∈ alternatives -> can_draw engine s v ->
      can_draw engine (SOneOf alternatives) v
  | draw_filter condition s v :
      can_draw engine s v -> condition v = true ->
      can_draw engine (SFilter condition s) v
  | draw_primitive s v :
      engine_primitive s = true -> engine s v -> can_draw engine s v.

(** The number of parameters a [Callable] alias declares: its
    [__args__] without the return type. *)
Definition declared_parameters (args : list tyexpr) : nat :=
  length args - 1.

(** Code that leaves the entry of key [k] as it found it, however it
    ends. *)
Definition preserves_key {A} (k : regkey) (m : M A) : Prop :=
  forall r, (m r).2 !! k = r !! k.

(** The names [check_all_laws] publishes for a container. *)
Definition published_names (container_type : Lawful) : list string :=
  map (fun p => test_name container_type p.1 p.2) (law_pairs container_type).

(** A body that reports the table it runs in and leaves it alone. *)
Definition get_table : M registry := fun r => (Ok r, r).

(** ** More sample data *)

Module Fixtures.

(** A container defined in the [returns] package itself, with all three
    safer ways of construction. *)
Definition result_class : pyclass := PyClass (Some "returns.result") "Result".

Definition Result : Lawful :=
  {| ct_class := result_class;
     ct_bases := [ResultLikeN; ApplicativeN; MaybeLikeN; Sample.Mappable;
                  PyClass (Some "builtins") "object"];
     ct_init := true;
     ct_laws := [(Sample.Mappable, [Sample.identity]);
                 (ApplicativeN, [MkLaw "identity" 2; MkLaw "homomorphism" 3])]
  |}.

(** A container that claims interfaces but declares no law. *)
Definition Lawless : Lawful :=
  {| ct_class := PyClass (Some "test_lawless") "Lawless";
     ct_bases := [Sample.Mappable];
     ct_init := true;
     ct_laws := [(Sample.Mappable, [])] |}.



(** A container with two laws under one interface. *)
Definition associative : Law := MkLaw "associative" 4.

Definition Crate : Lawful :=
  {| ct_class := PyClass (Some "test_crate") "Crate";
     ct_bases := [Sample.Mappable];
     ct_init := true;
     ct_laws := [(Sample.Mappable, [Sample.identity; associative])] |}.


(** A data object whose [draw] fails and leaves the table alone. *)
Definition failing_source : DataObject :=
  MkDataObject (fun _ => raise (Failure 7)).

End Fixtures.

(** * Properties *)

(** ** The monad *)

Lemma bind_ok {A B} (m : M A) (k : A -> M B) r a r' :
  m r = (Ok a, r') -> bind m k r = k a r'.
Proof. intros H. unfold bind. by rewrite H. Qed.

Lemma bind_raise {A B} (m : M A) (k : A -> M B) r e r' :
  m r = (Raise e, r') -> bind m k r = (Raise e, r').
Proof. intros H. unfold bind. by rewrite H. Qed.

Lemma bind_inv_ok {A B} (m : M A) (k : A -> M B) r b r2 :
  bind m k r = (Ok b, r2) ->
  exists a r1, m r = (Ok a, r1) /\ k a r1 = (Ok b, r2).
Proof.
  unfold bind. destruct (m r) as [[a|e] r1]; [eauto | discriminate].
Qed.

Lemma bind_ret_r {A} (m : M A) r : bind m ret r = m r.
Proof. unfold bind, ret. by destruct (m r) as [[a|e] r1]. Qed.


Lemma restores_ret {A} (a : A) : restores (ret a).
Proof. intros r b r' H. unfold ret in H. congruence. Qed.

Lemma restores_raise {A} (e : exn) : restores (@raise A e).
Proof. intros r b r' H. unfold raise in H. discriminate. Qed.

(** ** Binding and unbinding a list of classes *)



Lemma for_each_register e ks r :
  for_each ks (fun i => register_type_strategy (KClass i) e) r
  = (Ok tt, bind_classes e ks r).
Proof.
  revert r. induction ks as [|i ks IH]; intros r; [done|].
  cbn [for_each]. unfold bind at 1. cbn. apply IH.
Qed.

Lemma lookup_bind_classes e ks r k :
  bind_classes e ks r !! k
  = if bool_decide (k ∈ KClass <$> ks) then Some e else r !! k.
Proof.
  revert r. induction ks as [|i ks IH]; intros r; [done|].
  cbn [bind_classes foldl]. fold (bind_classes e ks (<[KClass i:=e]> r)).
  rewrite IH, fmap_cons.
  destruct (decide (k ∈ KClass <$> ks)) as [Hin|Hin].
  - rewrite !bool_decide_eq_true_2; [done | set_solver | done].
  - rewrite (bool_decide_eq_false_2 _ Hin).
    destruct (decide (k = KClass i)) as [->|Hne].
    + rewrite lookup_insert_eq, bool_decide_eq_true_2; [done | set_solver].
    + rewrite lookup_insert_ne by done.
      rewrite bool_decide_eq_false_2; [done | set_solver].
Qed.

Lemma lookup_unbind_classes ks r k :
  unbind_classes ks r !! k
  = if bool_decide (k ∈ KClass <$> ks) then None else r !! k.
Proof.
  revert r. induction ks as [|i ks IH]; intros r; [done|].
  cbn [unbind_classes foldl]. fold (unbind_classes ks (delete (KClass i) r)).
  rewrite IH, fmap_cons.
  destruct (decide (k ∈ KClass <$> ks)) as [Hin|Hin].
  - rewrite !bool_decide_eq_true_2; [done | set_solver | done].
  - rewrite (bool_decide_eq_false_2 _ Hin).
    destruct (decide (k = KClass i)) as [->|Hne].
    + rewrite lookup_delete_eq, bool_decide_eq_true_2; [done | set_solver].
    + rewrite lookup_delete_ne by done.
      rewrite bool_decide_eq_false_2; [done | set_solver].
Qed.

(** Popping a duplicate-free list of bound classes succeeds. *)
Lemma for_each_pop ks r :
  NoDup ks ->
  (forall i, i ∈ ks -> is_Some (r !! KClass i)) ->
  for_each ks (fun i => pop (KClass i) ;; ret tt) r
  = (Ok tt, unbind_classes ks r).
Proof.
  revert r. induction ks as [|i ks IH]; intros r Hnd Hall; [done|].
  apply NoDup_cons in Hnd as [Hni Hnd].
  destruct (Hall i) as [e He]; [set_solver|].
  cbn [for_each]. unfold bind at 1, bind at 1, pop at 1. rewrite He. cbn.
  apply IH; [done|]. intros j Hj.
  rewrite lookup_delete_ne; [apply Hall; set_solver|].
  intros [= ->]. done.
Qed.

(** Popping a class that is not bound raises [KeyError] and stops. *)
Lemma for_each_pop_missing i ks r :
  r !! KClass i = None ->
  for_each (i :: ks) (fun i => pop (KClass i) ;; ret tt) r
  = (Raise (KeyError (KClass i)), r).
Proof.
  intros Hi. cbn [for_each]. unfold bind at 1, bind at 1, pop at 1.
  by rewrite Hi.
Qed.

Lemma unbind_bind_classes e ks r :
  (forall i, i ∈ ks -> r !! KClass i = None) ->
  unbind_classes ks (bind_classes e ks r) = r.
Proof.
  intros Hfree. apply map_eq. intros k.
  rewrite lookup_unbind_classes, lookup_bind_classes.
  case_bool_decide as Hin; [|done].
  apply list_elem_of_fmap in Hin as (i & -> & Hi). symmetry. by apply Hfree.
Qed.

Lemma NoDup_our_interfaces ct : NoDup (our_interfaces ct).
Proof. apply NoDup_remove_dups. Qed.

Lemma elem_of_our_interfaces ct i :
  i ∈ our_interfaces ct <->
  i ∈ mro ct /\ String.prefix "returns." (getattr_module i) = true.
Proof.
  unfold our_interfaces. rewrite elem_of_remove_dups, list_elem_of_In.
  rewrite filter_In, <- list_elem_of_In. done.
Qed.

(** ** The default-container scope *)

(** Entered with the container already in the table, the scope is its
    body: nothing is bound and nothing is removed. *)
Lemma maybe_register_container_known {A} ct ui (body : M A) r :
  is_Some (r !! KClass (ct_class ct)) ->
  maybe_register_container ct ui body r = body r.
Proof.
  intros Hk.
  unfold maybe_register_container, bind, contains, ret.
  rewrite (bool_decide_eq_true_2 _ Hk). cbn.
  by destruct (body r) as [[a|e] r1].
Qed.

(** Entered without it, the scope binds the container factory, runs the
    body, and pops the key if the body completed normally. *)
Lemma maybe_register_container_unknown {A} ct ui (body : M A) r :
  r !! KClass (ct_class ct) = None ->
  maybe_register_container ct ui body r =
  match body (<[KClass (ct_class ct) :=
                  Resolver (_create_container_factory ct ui)]> r) with
  | (Ok a, r1) =>
      match r1 !! KClass (ct_class ct) with
      | Some _ => (Ok a, delete (KClass (ct_class ct)) r1)
      | None => (Raise (KeyError (KClass (ct_class ct))), r1)
      end
  | (Raise e, r1) => (Raise e, r1)
  end.
Proof.
  intros Hk.
  unfold maybe_register_container, bind, contains, ret, pop,
    register_type_strategy.
  rewrite bool_decide_eq_false_2 by (rewrite Hk; by intros [? ?]). cbn.
  destruct (body _) as [[a|e] r1]; [|done].
  by destruct (r1 !! _).
Qed.

Lemma maybe_register_container_restores {A} ct ui (body : M A) :
  restores body -> restores (maybe_register_container ct ui body).
Proof.
  intros Hbody r a r' H.
  destruct (r !! KClass (ct_class ct)) as [e|] eqn:Hk.
  - rewrite maybe_register_container_known in H by eauto. eauto.
  - rewrite maybe_register_container_unknown in H by done.
    destruct (body _) as [[b|e] r1] eqn:Hb; [|done].
    apply Hbody in Hb as ->.
    rewrite lookup_insert_eq in H. injection H as _ <-.
    by rewrite delete_insert_eq, delete_id.
Qed.

(** C7. [maybe_register_container] binds the container type
    only when the table does not hold it at entry, and removes the
    binding on exit only when it made it.  For every body and table:
    opened inside itself the scope behaves as opened once; entered with
    the container already bound it is exactly its body, so that binding
    is neither replaced nor removed; entered without it, the body runs
    with the container factory bound and a normal exit pops the key. *)
Theorem maybe_register_container_idempotent_nesting
    {A} (container_type : Lawful) (use_init inner_use_init : bool)
    (body : M A) (r : registry) :
  let key := KClass (ct_class container_type) in
  let scope := @maybe_register_container A container_type in
  scope use_init (scope inner_use_init body) r = scope use_init body r
  /\ (forall e, r !! key = Some e -> scope use_init body r = body r)
  /\ (r !! key = None ->
      scope use_init body r =
      match body (<[key := Resolver (_create_container_factory
                                       container_type use_init)]> r) with
      | (Ok a, r1) =>
          match r1 !! key with
          | Some _ => (Ok a, delete key r1)
          | None => (Raise (KeyError key), r1)
          end
      | (Raise e, r1) => (Raise e, r1)
      end).
Proof.
  intros key scope. subst scope. split_and!.
  - destruct (r !! key) as [e|] eqn:Hk.
    + rewrite !maybe_register_container_known by eauto. done.
    + rewrite !(maybe_register_container_unknown _ use_init) by done.
      rewrite maybe_register_container_known; [done|].
      rewrite lookup_insert_eq. eauto.
  - intros e He. apply maybe_register_container_known. eauto.
  - intros Hk. by apply maybe_register_container_unknown.
Qed.

(** ** The scopes that replace an engine resolver *)

Lemma pure_functions_unfold {A} (body : M A) r :
  pure_functions body r =
  match r !! KCallable with
  | None => (Raise (KeyError KCallable), r)
  | Some used =>
      match body (<[KCallable := Resolver pure_functions_factory]> r) with
      | (Ok a, r1) =>
          match r1 !! KCallable with
          | Some _ => (Ok a, <[KCallable := used]> (delete KCallable r1))
          | None => (Raise (KeyError KCallable), r1)
          end
      | (Raise e, r1) => (Raise e, r1)
      end
  end.
Proof.
  unfold pure_functions, bind, getitem, register_type_strategy, pop, ret.
  destruct (r !! KCallable) as [used|]; [|done].
  destruct (body _) as [[a|e] r1]; [|done].
  by destruct (r1 !! KCallable).
Qed.

Lemma type_vars_unfold {A} (body : M A) r :
  type_vars body r =
  match r !! KTypeVar with
  | None => (Raise (KeyError KTypeVar), r)
  | Some used =>
      match body (<[KTypeVar := Resolver type_vars_factory]> r) with
      | (Ok a, r1) =>
          match r1 !! KTypeVar with
          | Some _ => (Ok a, <[KTypeVar := used]> (delete KTypeVar r1))
          | None => (Raise (KeyError KTypeVar), r1)
          end
      | (Raise e, r1) => (Raise e, r1)
      end
  end.
Proof.
  unfold type_vars, bind, getitem, register_type_strategy, pop, ret.
  destruct (r !! KTypeVar) as [used|]; [|done].
  destruct (body _) as [[a|e] r1]; [|done].
  by destruct (r1 !! KTypeVar).
Qed.

(** Putting back the entry read at entry undoes the rebinding. *)
Lemma rebind_roundtrip (k : regkey) (used e : entry) (r : registry) :
  r !! k = Some used ->
  <[k := used]> (delete k (<[k := e]> r)) = r.
Proof.
  intros Hk. rewrite delete_insert_eq, insert_delete_eq. by apply insert_id.
Qed.

Lemma pure_functions_restores {A} (body : M A) :
  restores body -> restores (pure_functions body).
Proof.
  intros Hbody r a r'. rewrite pure_functions_unfold.
  destruct (r !! KCallable) as [used|] eqn:Hk; [|done].
  destruct (body _) as [[b|e] r1] eqn:Hb; [|done].
  apply Hbody in Hb as ->. rewrite lookup_insert_eq.
  intros [= _ <-]. by apply rebind_roundtrip.
Qed.

Lemma type_vars_restores {A} (body : M A) :
  restores body -> restores (type_vars body).
Proof.
  intros Hbody r a r'. rewrite type_vars_unfold.
  destruct (r !! KTypeVar) as [used|] eqn:Hk; [|done].
  destruct (body _) as [[b|e] r1] eqn:Hb; [|done].
  apply Hbody in Hb as ->. rewrite lookup_insert_eq.
  intros [= _ <-]. by apply rebind_roundtrip.
Qed.

(** ** The interface scope *)


Lemma container_strategies_unfold {A} ct settings (body : M A) r :
  container_strategies ct settings body r =
  match maybe_register_container ct (use_init settings) body
          (interfaces_bound ct settings r) with
  | (Ok a, r1) =>
      match for_each (our_interfaces ct)
              (fun i => pop (KClass i) ;; ret tt) r1 with
      | (Ok _, r2) => (Ok a, r2)
      | (Raise e, r2) => (Raise e, r2)
      end
  | (Raise e, r1) => (Raise e, r1)
  end.
Proof.
  unfold container_strategies. unfold bind at 1.
  rewrite for_each_register. fold (interfaces_bound ct settings r).
  unfold bind at 1.
  destruct (maybe_register_container _ _ _ _) as [[a|e] r1]; [|done].
  unfold bind at 1.
  by destruct (for_each _ _ r1) as [[[]|e] r2].
Qed.

Lemma interfaces_bound_is_Some ct settings r i :
  i ∈ our_interfaces ct ->
  is_Some (interfaces_bound ct settings r !! KClass i).
Proof.
  intros Hi. unfold interfaces_bound. rewrite lookup_bind_classes.
  rewrite bool_decide_eq_true_2; [eauto|].
  apply list_elem_of_fmap. eauto.
Qed.

Lemma container_strategies_restores {A} ct settings (body : M A) r a r' :
  restores body ->
  (forall i, i ∈ our_interfaces ct -> r !! KClass i = None) ->
  container_strategies ct settings body r = (Ok a, r') ->
  r' = r.
Proof.
  intros Hbody Hfree. rewrite container_strategies_unfold.
  destruct (maybe_register_container _ _ _ _) as [[b|e] r1] eqn:Hm; [|done].
  apply maybe_register_container_restores in Hm as ->; [|done].
  rewrite for_each_pop;
    [| apply NoDup_our_interfaces
     | intros i Hi; by apply interfaces_bound_is_Some].
  intros [= _ <-]. by apply unbind_bind_classes.
Qed.

(** A body that completes normally takes each scope to a normal exit. *)
Lemma maybe_register_container_completes {A} ct ui (body : M A) r a r1 :
  restores body ->
  body (container_bound ct ui r) = (Ok a, r1) ->
  maybe_register_container ct ui body r = (Ok a, r).
Proof.
  intros Hbody Hb. pose proof (Hbody _ _ _ Hb) as ->.
  unfold container_bound in Hb.
  destruct (r !! KClass (ct_class ct)) as [e|] eqn:Hk.
  - rewrite maybe_register_container_known by eauto. done.
  - rewrite maybe_register_container_unknown, Hb by done.
    rewrite lookup_insert_eq. by rewrite delete_insert_eq, delete_id.
Qed.

Lemma pure_functions_completes {A} (body : M A) r used a r1 :
  restores body ->
  r !! KCallable = Some used ->
  body (<[KCallable := Resolver pure_functions_factory]> r) = (Ok a, r1) ->
  pure_functions body r = (Ok a, r).
Proof.
  intros Hbody Hk Hb. pose proof (Hbody _ _ _ Hb) as ->.
  rewrite pure_functions_unfold, Hk, Hb, lookup_insert_eq.
  by rewrite rebind_roundtrip.
Qed.

Lemma type_vars_completes {A} (body : M A) r used a r1 :
  restores body ->
  r !! KTypeVar = Some used ->
  body (<[KTypeVar := Resolver type_vars_factory]> r) = (Ok a, r1) ->
  type_vars body r = (Ok a, r).
Proof.
  intros Hbody Hk Hb. pose proof (Hbody _ _ _ Hb) as ->.
  rewrite type_vars_unfold, Hk, Hb, lookup_insert_eq.
  by rewrite rebind_roundtrip.
Qed.

Lemma container_strategies_completes {A} ct settings (body : M A) r a r1 :
  restores body ->
  (forall i, i ∈ our_interfaces ct -> r !! KClass i = None) ->
  body (scope_table ct settings r) = (Ok a, r1) ->
  container_strategies ct settings body r = (Ok a, r).
Proof.
  intros Hbody Hfree Hb. rewrite container_strategies_unfold.
  rewrite (maybe_register_container_completes _ _ _ _ a r1) by done.
  rewrite for_each_pop;
    [| apply NoDup_our_interfaces
     | intros i Hi; by apply interfaces_bound_is_Some].
  unfold interfaces_bound. by rewrite unbind_bind_classes.
Qed.

(** When a scope of the module is left normally, by a body that
    itself leaves the table as it found it, the table after the scope
    equals the table before it; and such a body, completing normally in
    the table the scope hands it, does take the scope to a normal exit.
    This holds as it stands for [maybe_register_container], and for
    [pure_functions] and [type_vars] (which need their key bound to
    start at all); for [container_strategies] it holds when no class of
    [our_interfaces] was bound at entry, because the scope pops those
    keys instead of putting back what they held. *)
Theorem scopes_restore_table_on_normal_exit
    {A} (body : M A) (container_type : Lawful) (settings : _Settings)
    (use_init : bool) (r : registry) (a : A) (r' : registry) :
  restores body ->
  ((maybe_register_container container_type use_init body r = (Ok a, r') ->
    r' = r)
   /\ (pure_functions body r = (Ok a, r') -> r' = r)
   /\ (type_vars body r = (Ok a, r') -> r' = r)
   /\ ((forall i, i ∈ our_interfaces container_type ->
                  r !! KClass i = None) ->
       container_strategies container_type settings body r = (Ok a, r') ->
       r' = r))
  /\ ((body (container_bound container_type use_init r) = (Ok a, r') ->
       maybe_register_container container_type use_init body r = (Ok a, r))
      /\ (is_Some (r !! KCallable) ->
          body (<[KCallable := Resolver pure_functions_factory]> r)
          = (Ok a, r') ->
          pure_functions body r = (Ok a, r))
      /\ (is_Some (r !! KTypeVar) ->
          body (<[KTypeVar := Resolver type_vars_factory]> r) = (Ok a, r') ->
          type_vars body r = (Ok a, r))
      /\ ((forall i, i ∈ our_interfaces container_type ->
                     r !! KClass i = None) ->
          body (scope_table container_type settings r) = (Ok a, r') ->
          container_strategies container_type settings body r = (Ok a, r))).
Proof.
  intros Hbody. split; split_and!.
  - by apply maybe_register_container_restores.
  - by apply pure_functions_restores.
  - by apply type_vars_restores.
  - intros Hfree. by apply container_strategies_restores.
  - by apply maybe_register_container_completes.
  - intros [used Hk]. by apply pure_functions_completes with used.
  - intros [used Hk]. by apply type_vars_completes with used.
  - intros Hfree. by apply container_strategies_completes.
Qed.

Lemma sample_interfaces_free i :
  i ∈ our_interfaces Sample.Box -> Sample.engine_table !! KClass i = None.
Proof.
  intros Hi. vm_compute in Hi.
  apply list_elem_of_In in Hi. destruct Hi as [<-|[]]. vm_compute. done.
Qed.

Lemma scopes_restore_table_witness :
  restores (@ret unit tt)
  /\ snd (maybe_register_container Sample.Box false (ret tt)
            Sample.engine_table) = Sample.engine_table
  /\ snd (pure_functions (ret tt) Sample.engine_table) = Sample.engine_table
  /\ snd (type_vars (ret tt) Sample.engine_table) = Sample.engine_table
  /\ snd (container_strategies Sample.Box Sample.no_settings (ret tt)
            Sample.engine_table) = Sample.engine_table.
Proof.
  split; [apply restores_ret|].
  split_and!.
  - refine (proj1 (proj1 (scopes_restore_table_on_normal_exit (ret tt)
                     Sample.Box Sample.no_settings false Sample.engine_table
                     tt _ (restores_ret tt))) _).
    vm_compute. reflexivity.
  - refine (proj1 (proj2 (proj1 (scopes_restore_table_on_normal_exit (ret tt)
                     Sample.Box Sample.no_settings false Sample.engine_table
                     tt _ (restores_ret tt)))) _).
    vm_compute. reflexivity.
  - refine (proj1 (proj2 (proj2 (proj1 (scopes_restore_table_on_normal_exit
                     (ret tt) Sample.Box Sample.no_settings false
                     Sample.engine_table tt _ (restores_ret tt))))) _).
    vm_compute. reflexivity.
  - refine (proj2 (proj2 (proj2 (proj1 (scopes_restore_table_on_normal_exit
                     (ret tt) Sample.Box Sample.no_settings false
                     Sample.engine_table tt _ (restores_ret tt)))))
              sample_interfaces_free _).
    vm_compute. reflexivity.
Defined.

(** What a body that raises leaves behind: the statements after the
    [yield] do not run. *)
Lemma pure_functions_failing_body {A} (body : M A) r used e r1 :
  r !! KCallable = Some used ->
  body (<[KCallable := Resolver pure_functions_factory]> r) = (Raise e, r1) ->
  pure_functions body r = (Raise e, r1).
Proof. intros Hk Hb. by rewrite pure_functions_unfold, Hk, Hb. Qed.

Lemma type_vars_failing_body {A} (body : M A) r used e r1 :
  r !! KTypeVar = Some used ->
  body (<[KTypeVar := Resolver type_vars_factory]> r) = (Raise e, r1) ->
  type_vars body r = (Raise e, r1).
Proof. intros Hk Hb. by rewrite type_vars_unfold, Hk, Hb. Qed.

Lemma container_strategies_failing_body {A} ct settings (body : M A) r e r1 :
  maybe_register_container ct (use_init settings) body
    (interfaces_bound ct settings r) = (Raise e, r1) ->
  container_strategies ct settings body r = (Raise e, r1).
Proof. intros Hb. by rewrite container_strategies_unfold, Hb. Qed.


(** C1. The scopes do not restore the table on a failing exit.  At the
    engine's table, each of the four scopes left by an exception of its
    body keeps what it bound at entry: [Callable] and [TypeVar] stay on
    the module's factories instead of the engine's entries, and [Box]
    and [Mappable] stay bound though they were not before, so the table
    after the scope is not the table before it.  Also
    [container_strategies], left normally, has removed the binding
    [Mappable] held before the scope was entered. *)
Lemma scope_exit_does_not_restore_table :
  (pure_functions Sample.failing_body Sample.engine_table).1
    = Raise (Failure 0)
  /\ ((pure_functions Sample.failing_body Sample.engine_table).2 !! KCallable
        = Some (Resolver pure_functions_factory)
      /\ Sample.engine_table !! KCallable = Some (Strat (SOpaque 0))
      /\ (pure_functions Sample.failing_body Sample.engine_table).2
         <> Sample.engine_table)
  /\ ((type_vars Sample.failing_body Sample.engine_table).2 !! KTypeVar
        = Some (Resolver type_vars_factory)
      /\ Sample.engine_table !! KTypeVar = Some (Strat (SOpaque 1)))
  /\ ((maybe_register_container Sample.Box false Sample.failing_body
         Sample.engine_table).2 !! KClass Sample.box_class
        = Some (Resolver (_create_container_factory Sample.Box false))
      /\ Sample.engine_table !! KClass Sample.box_class = None)
  /\ ((container_strategies Sample.Box Sample.no_settings Sample.failing_body
         Sample.engine_table).2 !! KClass Sample.Mappable
        = Some (Resolver (_create_container_factory Sample.Box false))
      /\ Sample.engine_table !! KClass Sample.Mappable = None)
  /\ ((container_strategies Sample.Box Sample.no_settings (ret tt)
         Sample.user_table).1 = Ok tt
      /\ (container_strategies Sample.Box Sample.no_settings (ret tt)
           Sample.user_table).2 !! KClass Sample.Mappable = None
      /\ Sample.user_table !! KClass Sample.Mappable
         = Some (Strat (SOpaque 2))).
Proof.
  split_and!; try (vm_compute; reflexivity).
  intros H. apply (f_equal (fun m => m !! KCallable)) in H.
  vm_compute in H. discriminate.
Qed.


(** ** Where the bodies run *)

(** [maybe_register_container] applies its body to [container_bound]
    and to no other table. *)
Lemma maybe_register_container_body_table {A} ct ui (body body' : M A) r :
  body (container_bound ct ui r) = body' (container_bound ct ui r) ->
  maybe_register_container ct ui body r
  = maybe_register_container ct ui body' r.
Proof.
  unfold container_bound. intros Hb.
  destruct (r !! KClass (ct_class ct)) as [e|] eqn:Hk.
  - rewrite !maybe_register_container_known by eauto. done.
  - rewrite !maybe_register_container_unknown by done. by rewrite Hb.
Qed.

Lemma container_strategies_body_table {A} ct settings (body body' : M A) r :
  body (scope_table ct settings r) = body' (scope_table ct settings r) ->
  container_strategies ct settings body r
  = container_strategies ct settings body' r.
Proof.
  intros Hb. rewrite !container_strategies_unfold.
  by rewrite (maybe_register_container_body_table _ _ body body').
Qed.

Lemma maybe_register_container_body_raises {A} ct ui (body : M A) r e r1 :
  body (container_bound ct ui r) = (Raise e, r1) ->
  maybe_register_container ct ui body r = (Raise e, r1).
Proof.
  unfold container_bound. intros Hb.
  destruct (r !! KClass (ct_class ct)) as [e'|] eqn:Hk.
  - rewrite maybe_register_container_known by eauto. done.
  - rewrite maybe_register_container_unknown by done. by rewrite Hb.
Qed.

Lemma container_strategies_body_raises {A} ct settings (body : M A) r e r1 :
  body (scope_table ct settings r) = (Raise e, r1) ->
  container_strategies ct settings body r = (Raise e, r1).
Proof.
  intros Hb. apply container_strategies_failing_body.
  by apply maybe_register_container_body_raises.
Qed.

(** ** The container factory *)

Lemma issubclass_spec ct interface :
  issubclass ct interface = true <-> interface ∈ mro ct.
Proof. unfold issubclass. apply bool_decide_eq_true. Qed.

(** C8. The factory answers [st.one_of] over one
    [st.builds] per supported way of construction, in the order raw
    constructor, [from_value], [from_failure], [from_optional].  The
    raw constructor is among them exactly when [use_init] is set and the
    class has an [__init__]; so it never is unless [use_init] is set (or
    no safer construction exists). *)
Theorem container_factory_surfaces_raw_constructor_only_with_use_init
    (container_type : Lawful) (use_init : bool) (type_ : tyexpr) :
  let alternatives :=
    (if use_init && ct_init container_type
     then [SBuilds (RawInit container_type)] else [])
    ++ (if issubclass container_type ApplicativeN
        then [SBuilds (FromValue container_type)] else [])
    ++ (if issubclass container_type ResultLikeN
        then [SBuilds (FromFailure container_type)] else [])
    ++ (if issubclass container_type MaybeLikeN
        then [SBuilds (FromOptional container_type)] else []) in
  let no_safer_construction :=
    issubclass container_type ApplicativeN = false
    /\ issubclass container_type ResultLikeN = false
    /\ issubclass container_type MaybeLikeN = false in
  _create_container_factory container_type use_init type_
  = Ok (SOneOf alternatives)
  /\ (forall c, SBuilds (RawInit c) ∈ alternatives <->
                c = container_type /\ use_init = true
                /\ ct_init container_type = true)
  /\ (forall c, SBuilds (RawInit c) ∈ alternatives ->
                use_init = true \/ no_safer_construction).
Proof.
  intros alternatives no_safer_construction.
  assert (Hraw : forall c, SBuilds (RawInit c) ∈ alternatives <->
                   c = container_type /\ use_init = true
                   /\ ct_init container_type = true).
  { intros c. subst alternatives.
    destruct use_init, (ct_init container_type),
      (issubclass container_type ApplicativeN),
      (issubclass container_type ResultLikeN),
      (issubclass container_type MaybeLikeN); cbn;
      rewrite ?elem_of_cons, ?elem_of_nil; split;
      try (intros (? & ? & ?); discriminate);
      intros H; repeat (destruct H as [H|H]); try discriminate; try done;
      try (injection H as ->; done);
      try (destruct H as (-> & _ & _); by left). }
  split_and!.
  - unfold _create_container_factory. subst alternatives.
    destruct (use_init && ct_init container_type),
      (issubclass container_type ApplicativeN),
      (issubclass container_type ResultLikeN),
      (issubclass container_type MaybeLikeN); reflexivity.
  - exact Hraw.
  - intros c Hc. apply Hraw in Hc as (_ & -> & _). by left.
Qed.

(** ** Running a check *)

Lemma version_lt_spec (v : nat * nat) :
  version_lt v (3, 7)%nat = true <->
  (v.1 < 3 \/ (v.1 = 3 /\ v.2 < 7))%nat.
Proof.
  unfold version_lt. cbn [fst snd].
  rewrite orb_true_iff, andb_true_iff, !Nat.ltb_lt, Nat.eqb_eq. done.
Qed.

Lemma run_law_supported_python pyv ct law settings source r :
  version_lt pyv (3, 7)%nat = false ->
  _run_law pyv ct law settings source r
  = type_vars
      (pure_functions
         (container_strategies ct settings
            (draw source (SBuilds (LawDefinition law))))) r.
Proof. intros Hv. unfold _run_law. by rewrite Hv. Qed.

(** C9. Every execution of a generated check starts with
    the version test.  On a runtime older than 3.7 it raises
    [RuntimeError] whatever the table holds and whatever the data
    object would draw, and the table is left untouched: no scope has
    been entered.  On a supported runtime the first thing it does is
    enter [type_vars], which reads the [TypeVar] key. *)
Theorem run_check_tests_python_version_first
    (_pyversion : nat * nat) (test : test_function) (source : DataObject)
    (r : registry) :
  (version_lt _pyversion (3, 7)%nat = true <->
   (_pyversion.1 < 3 \/ (_pyversion.1 = 3 /\ _pyversion.2 < 7))%nat)
  /\ (version_lt _pyversion (3, 7)%nat = true ->
      run_check _pyversion test source r
      = (Raise (RuntimeError python36_message), r))
  /\ (version_lt _pyversion (3, 7)%nat = false ->
      r !! KTypeVar = None ->
      run_check _pyversion test source r = (Raise (KeyError KTypeVar), r)).
Proof.
  split_and!.
  - apply version_lt_spec.
  - intros Hv. unfold run_check, _run_law. by rewrite Hv.
  - intros Hv Hk. unfold run_check.
    rewrite run_law_supported_python by done.
    by rewrite type_vars_unfold, Hk.
Qed.

(** ** What [check_all_laws] publishes *)

Lemma publish_all_app tests tests' m :
  publish_all (tests ++ tests') m = publish_all tests' (publish_all tests m).
Proof. apply foldl_app. Qed.

Lemma create_law_test_cases_publish ct interface settings laws m :
  foldl (fun module law =>
           _create_law_test_case ct interface law settings module) m laws
  = publish_all (map (published_test ct settings) (map (pair interface) laws))
      m.
Proof.
  revert m. induction laws as [|law laws IH]; intros m; [done|].
  cbn [foldl map]. rewrite IH. reflexivity.
Qed.

Lemma check_all_laws_publish_all ct kwargs ui m :
  check_all_laws ct kwargs ui m
  = publish_all
      (map (published_test ct
              (Mk_Settings (match kwargs with
                            | Some kwargs => kwargs
                            | None => []
                            end) ui))
           (law_pairs ct)) m.
Proof.
  unfold check_all_laws, law_pairs.
  generalize (Mk_Settings (match kwargs with
                           | Some kwargs => kwargs
                           | None => []
                           end) ui) as settings.
  intros settings. revert m.
  induction (ct_laws ct) as [|[interface laws] rest IH]; intros m; [done|].
  cbn [foldl flat_map]. rewrite IH, map_app, publish_all_app.
  by rewrite create_law_test_cases_publish.
Qed.

Lemma length_law_pairs ct : length (law_pairs ct) = total_laws ct.
Proof.
  unfold law_pairs, total_laws.
  induction (ct_laws ct) as [|[interface laws] rest IH]; [done|].
  cbn [flat_map map sum_list sum_list_with].
  by rewrite length_app, length_map, IH.
Qed.

Lemma mod_setattr_calls_publish_all tests m :
  mod_setattr_calls (publish_all tests m) = mod_setattr_calls m ++ tests.
Proof.
  revert m. induction tests as [|[name test] tests IH]; intros m.
  - by rewrite app_nil_r.
  - change (publish_all ((name, test) :: tests) m)
      with (publish_all tests (setattr m name test)).
    rewrite IH. cbn. by rewrite <- app_assoc.
Qed.

Lemma lookup_publish_all_other tests m name :
  name ∉ tests.*1 ->
  mod_dict (publish_all tests m) !! name = mod_dict m !! name.
Proof.
  revert m. induction tests as [|[n test] tests IH]; intros m Hn; [done|].
  change (publish_all ((n, test) :: tests) m)
    with (publish_all tests (setattr m n test)).
  rewrite fmap_cons, not_elem_of_cons in Hn. destruct Hn as [Hne Hn].
  rewrite IH by done. cbn. by rewrite lookup_insert_ne.
Qed.


(** With pairwise distinct names every published test is found. *)
Lemma lookup_publish_all_NoDup tests m name test :
  NoDup tests.*1 -> (name, test) ∈ tests ->
  mod_dict (publish_all tests m) !! name = Some test.
Proof.
  revert m. induction tests as [|[n t] tests IH]; intros m Hnd Hin.
  - by apply elem_of_nil in Hin.
  - change (publish_all ((n, t) :: tests) m)
      with (publish_all tests (setattr m n t)).
    rewrite fmap_cons in Hnd. apply NoDup_cons in Hnd as [Hn Hnd].
    apply elem_of_cons in Hin as [[= -> ->]|Hin].
    + rewrite lookup_publish_all_other by done. cbn. apply lookup_insert_eq.
    + by apply IH.
Qed.











(** Two pairs whose names coincide (interfaces [Mappable] and
    [mappable] with a law of the same name) are both published, and the
    later test replaces the earlier one under the shared name. *)
Example colliding_names_overwrite :
  let twin := PyClass (Some "elsewhere") "mappable" in
  let ct := MkLawful Sample.box_class [Sample.Mappable; twin] true
              [(Sample.Mappable, [Sample.identity]);
               (twin, [MkLaw "identity" 1])] in
  let after := check_all_laws ct None false Sample.empty_module in
  length (mod_setattr_calls after) = 2
  /\ size (mod_dict after) = 1
  /\ tf_law <$> mod_dict after !! "test_box_mappable_identity"
     = Some (MkLaw "identity" 1).
Proof. vm_compute. done. Qed.

(** ** The names of the published tests *)

Lemma is_upper_ascii_lower c : is_upper (ascii_lower c) = false.
Proof. by destruct c as [[] [] [] [] [] [] [] []]. Qed.

Lemma has_upper_lower s : has_upper (lower s) = false.
Proof.
  induction s as [|c s IH]; [done|].
  cbn [lower has_upper]. by rewrite is_upper_ascii_lower, IH.
Qed.

Lemma lower_fixed s : has_upper s = false -> lower s = s.
Proof.
  induction s as [|c s IH]; [done|].
  cbn [lower has_upper]. intros [Hc Hs]%orb_false_iff.
  unfold ascii_lower. by rewrite Hc, IH.
Qed.

Lemma lower_idempotent s : lower (lower s) = lower s.
Proof. apply lower_fixed, has_upper_lower. Qed.

Lemma has_upper_app s t :
  has_upper (s +:+ t) = has_upper s || has_upper t.
Proof.
  induction s as [|c s IH]; [done|].
  change (String c s +:+ t) with (String c (s +:+ t)).
  cbn [has_upper]. by rewrite IH, orb_assoc.
Qed.

(** C4. The name under which [_create_law_test_case]
    publishes a test is ["test_"], the lower-cased qualified name of
    the container, ["_"], the lower-cased qualified name of the
    interface, ["_"], and the law's name as it is.  The container and
    interface parts hold no upper-case letter; the whole name does not
    either when the law's name has none.  [Box], [Mappable] and
    [identity] give [test_box_mappable_identity]. *)
Theorem test_name_lowercases_container_and_interface
    (container_type : Lawful) (interface : pyclass) (law : Law)
    (settings : _Settings) (module : py_module) :
  let container := lower (cls_qualname (ct_class container_type)) in
  let iface := lower (cls_qualname interface) in
  let name := "test_" +:+ container +:+ "_" +:+ iface +:+ "_" +:+ law_name law in
  mod_dict (_create_law_test_case container_type interface law settings module)
    !! name
  = Some {| tf_name := name;
            tf_container := container_type;
            tf_law := law;
            tf_settings := settings;
            tf_marks := ["returns_lawful"] |}
  /\ mod_setattr_calls
       (_create_law_test_case container_type interface law settings module)
     = mod_setattr_calls module
       ++ [published_test container_type settings (interface, law)]
  /\ has_upper container = false
  /\ has_upper iface = false
  /\ has_upper name = has_upper (law_name law)
  /\ test_name Sample.Box Sample.Mappable Sample.identity
     = "test_box_mappable_identity".
Proof.
  intros container iface name. split_and!.
  - unfold _create_law_test_case, setattr. cbn [mod_dict tf_name].
    apply lookup_insert_eq.
  - reflexivity.
  - apply has_upper_lower.
  - apply has_upper_lower.
  - unfold name. rewrite !has_upper_app.
    unfold container, iface. rewrite !has_upper_lower. reflexivity.
  - reflexivity.
Qed.

(** C4, counterexample: a law named [Identity_Law] is published for
    [Box] and [Mappable] under a name that keeps its capitals, not under
    the name with every part in lower case. *)
Lemma test_name_keeps_law_name_case :
  test_name Sample.Box Sample.Mappable Sample.Identity_Law
  = "test_box_mappable_Identity_Law"
  /\ test_name Sample.Box Sample.Mappable Sample.Identity_Law
     <> "test_" +:+ lower (cls_qualname (ct_class Sample.Box)) +:+ "_"
        +:+ lower (cls_qualname Sample.Mappable) +:+ "_"
        +:+ lower (law_name Sample.Identity_Law)
  /\ has_upper (test_name Sample.Box Sample.Mappable Sample.Identity_Law)
     = true
  /\ mod_dict (_create_law_test_case Sample.Box Sample.Mappable
                 Sample.Identity_Law Sample.no_settings Sample.empty_module)
       !! "test_box_mappable_identity_law" = None.
Proof. split_and!; [reflexivity | discriminate | reflexivity | reflexivity]. Qed.

(** ** A whole run of [_run_law] *)

Lemma maybe_register_container_ret {A} ct ui (a : A) r :
  maybe_register_container ct ui (ret a) r = (Ok a, r).
Proof.
  destruct (r !! KClass (ct_class ct)) as [e|] eqn:Hk.
  - rewrite maybe_register_container_known by eauto. done.
  - rewrite maybe_register_container_unknown by done.
    unfold ret. rewrite lookup_insert_eq.
    by rewrite delete_insert_eq, delete_id.
Qed.

Lemma container_strategies_ret {A} ct settings (a : A) r :
  (forall i, i ∈ our_interfaces ct -> r !! KClass i = None) ->
  container_strategies ct settings (ret a) r = (Ok a, r).
Proof.
  intros Hfree. rewrite container_strategies_unfold.
  rewrite maybe_register_container_ret.
  rewrite for_each_pop;
    [| apply NoDup_our_interfaces
     | intros i Hi; by apply interfaces_bound_is_Some].
  unfold interfaces_bound. by rewrite unbind_bind_classes.
Qed.

(** A draw that fails ends the run with its exception, in the table the
    draw left. *)
Lemma run_law_draw_raises pyv ct law settings source r used_tv used_fn e r1 :
  version_lt pyv (3, 7)%nat = false ->
  r !! KTypeVar = Some used_tv ->
  r !! KCallable = Some used_fn ->
  draw source (SBuilds (LawDefinition law)) (draw_table ct settings r)
  = (Raise e, r1) ->
  _run_law pyv ct law settings source r = (Raise e, r1).
Proof.
  intros Hv Htv Hfn Hdraw. rewrite run_law_supported_python by done.
  eapply type_vars_failing_body; [done|].
  eapply pure_functions_failing_body.
  - rewrite lookup_insert_ne by done. done.
  - by apply container_strategies_body_raises.
Qed.

(** A draw that succeeds and leaves the table alone ends the run with
    the table as it was before the run. *)
Lemma run_law_restores_table pyv ct law settings source r used_tv used_fn :
  version_lt pyv (3, 7)%nat = false ->
  r !! KTypeVar = Some used_tv ->
  r !! KCallable = Some used_fn ->
  (forall i, i ∈ our_interfaces ct -> r !! KClass i = None) ->
  draw source (SBuilds (LawDefinition law)) (draw_table ct settings r)
  = (Ok tt, draw_table ct settings r) ->
  _run_law pyv ct law settings source r = (Ok tt, r).
Proof.
  intros Hv Htv Hfn Hfree Hdraw. rewrite run_law_supported_python by done.
  rewrite type_vars_unfold, Htv, pure_functions_unfold.
  rewrite lookup_insert_ne, Hfn by done.
  rewrite (container_strategies_body_table _ _ _ (ret tt)) by done.
  rewrite container_strategies_ret.
  - rewrite lookup_insert_eq, (rebind_roundtrip KCallable).
    + by rewrite lookup_insert_eq, (rebind_roundtrip KTypeVar).
    + by rewrite lookup_insert_ne.
  - intros i Hi. rewrite !lookup_insert_ne by done. by apply Hfree.
Qed.

(** The container's own key, unbound before the run, holds the
    container factory when the draw happens. *)
Lemma lookup_draw_table_own ct settings r :
  r !! KClass (ct_class ct) = None ->
  draw_table ct settings r !! KClass (ct_class ct)
  = Some (Resolver (_create_container_factory ct (use_init settings))).
Proof.
  intros Hk. unfold draw_table, scope_table, container_bound.
  set (r2 := <[KCallable:=_]> _).
  destruct (interfaces_bound ct settings r2 !! KClass (ct_class ct))
    as [e|] eqn:Hb; [|by rewrite lookup_insert_eq].
  rewrite Hb. unfold interfaces_bound in Hb.
  rewrite lookup_bind_classes in Hb. case_bool_decide; [done|].
  unfold r2 in Hb. rewrite !lookup_insert_ne in Hb by done. congruence.
Qed.

(** ** A container that cannot be constructed *)

(** C2. For a container with no way of construction,
    [check_all_laws] still publishes every test: it never calls the
    container factory.  The factory is a closure that the scopes bind
    while a check runs; called then, it answers the empty union.  A
    draw that fails on it fails that execution of the check, with all
    bindings of the run still in the table. *)
Theorem zero_capability_container_fails_when_drawn
    (container_type : Lawful)
    (settings_kwargs : option (list (string * pyval))) (use_init : bool)
    (module : py_module) :
  use_init && ct_init container_type = false ->
  issubclass container_type ApplicativeN = false ->
  issubclass container_type ResultLikeN = false ->
  issubclass container_type MaybeLikeN = false ->
  let settings :=
    Mk_Settings (match settings_kwargs with
                 | Some kwargs => kwargs
                 | None => []
                 end) use_init in
  mod_setattr_calls
    (check_all_laws container_type settings_kwargs use_init module)
  = mod_setattr_calls module
    ++ map (published_test container_type settings) (law_pairs container_type)
  /\ (forall type_,
        _create_container_factory container_type use_init type_
        = Ok (SOneOf []))
  /\ (forall r,
        r !! KClass (ct_class container_type) = None ->
        draw_table container_type settings r !! KClass (ct_class container_type)
        = Some (Resolver (_create_container_factory container_type use_init)))
  /\ (forall pyv law source r used_tv used_fn e r1,
        version_lt pyv (3, 7)%nat = false ->
        r !! KTypeVar = Some used_tv ->
        r !! KCallable = Some used_fn ->
        draw source (SBuilds (LawDefinition law))
          (draw_table container_type settings r) = (Raise e, r1) ->
        _run_law pyv container_type law settings source r = (Raise e, r1)).
Proof.
  intros Hraw Happ Hres Hmay settings. split_and!.
  - rewrite check_all_laws_publish_all.
    apply mod_setattr_calls_publish_all.
  - intros type_. unfold _create_container_factory.
    by rewrite Hraw, Happ, Hres, Hmay.
  - intros r Hk. by apply (lookup_draw_table_own _ settings).
  - intros pyv law source r used_tv used_fn e r1.
    apply run_law_draw_raises.
Qed.

Lemma sample_box_cannot_be_constructed :
  false && ct_init Sample.Box = false
  /\ issubclass Sample.Box ApplicativeN = false
  /\ issubclass Sample.Box ResultLikeN = false
  /\ issubclass Sample.Box MaybeLikeN = false.
Proof. by vm_compute. Qed.

Lemma sample_engine_table_lookup :
  Sample.engine_table !! KTypeVar = Some (Strat (SOpaque 1))
  /\ Sample.engine_table !! KCallable = Some (Strat (SOpaque 0))
  /\ Sample.engine_table !! KClass Sample.box_class = None.
Proof. by vm_compute. Qed.

Lemma zero_capability_container_witness :
  (false && ct_init Sample.Box = false
   /\ issubclass Sample.Box ApplicativeN = false
   /\ issubclass Sample.Box ResultLikeN = false
   /\ issubclass Sample.Box MaybeLikeN = false)
  /\ mod_setattr_calls
       (check_all_laws Sample.Box None false Sample.empty_module)
     = [published_test Sample.Box Sample.no_settings
          (Sample.Mappable, Sample.identity)]
  /\ _create_container_factory Sample.Box false (TyClass Sample.box_class)
     = Ok (SOneOf [])
  /\ _run_law (3, 8)%nat Sample.Box Sample.identity Sample.no_settings
       Sample.refusing_source Sample.engine_table
     = (Raise (Failure 1),
        draw_table Sample.Box Sample.no_settings Sample.engine_table).
Proof.
  split; [exact sample_box_cannot_be_constructed|].
  destruct sample_box_cannot_be_constructed as (Hraw & Happ & Hres & Hmay).
  destruct sample_engine_table_lookup as (Htv & Hfn & Hbox).
  destruct (zero_capability_container_fails_when_drawn Sample.Box None false
              Sample.empty_module Hraw Happ Hres Hmay)
    as (Hpub & Hfactory & Hown & Hrun).
  split_and!.
  - exact Hpub.
  - apply Hfactory.
  - apply (Hrun (3, 8)%nat Sample.identity Sample.refusing_source
             Sample.engine_table _ _ _ _ eq_refl Htv Hfn).
    unfold Sample.refusing_source, draw.
    change (ct_class Sample.Box) with Sample.box_class in Hown.
    rewrite (Hown _ Hbox), Hfactory. reflexivity.
Defined.

(** C2, counterexample: [Box] is only mappable and [use_init] is off,
    so it has no way of construction; [check_all_laws] returns with its
    test published, and nothing was raised while building it. *)
Lemma zero_capability_container_is_published :
  (issubclass Sample.Box ApplicativeN = false
   /\ issubclass Sample.Box ResultLikeN = false
   /\ issubclass Sample.Box MaybeLikeN = false)
  /\ _create_container_factory Sample.Box false (TyClass Sample.box_class)
     = Ok (SOneOf [])
  /\ mod_dict (check_all_laws Sample.Box None false Sample.empty_module)
       !! "test_box_mappable_identity"
     = Some (published_test Sample.Box Sample.no_settings
               (Sample.Mappable, Sample.identity)).2
  /\ length (mod_setattr_calls
               (check_all_laws Sample.Box None false Sample.empty_module))
     = 1.
Proof. by vm_compute. Qed.

(** ** Type variables *)

Lemma can_draw_type_vars_factory engine thing v :
  can_draw engine
    (SFilter (fun inner => self_equal inner) (SOneOf [SResolveTypeVar thing])) v
  <-> engine (SResolveTypeVar thing) v /\ self_equal v = true.
Proof.
  split.
  - intros H. inversion H as [| p s v' Hs Hp |s v' Hprim _]; subst;
      [|discriminate].
    split; [|done].
    inversion Hs as [alts s v' Hin Hs' | |s v' Hprim _]; subst;
      [|discriminate].
    apply list_elem_of_singleton in Hin as ->.
    inversion Hs' as [| |s v' _ He]; subst. done.
  - intros [He Hv]. apply draw_filter; [|done].
    apply (draw_one_of _ _ (SResolveTypeVar thing)); [by left|].
    by apply draw_primitive.
Qed.

(** C5. Inside [type_vars] the [TypeVar] key is bound to a
    factory whose strategy draws exactly the values of the engine's own
    resolution of the variable that are equal to themselves: every
    drawn value satisfies [v == v] (a not-a-number float is never
    drawn), and no other value is lost. *)
Theorem type_vars_draws_self_equal_values
    {A} (engine : strategy -> pyval -> Prop) (thing : tyexpr)
    (body : M A) (r : registry) :
  (exists s,
      type_vars_factory thing = Ok s
      /\ (forall v, can_draw engine s v <->
                    engine (SResolveTypeVar thing) v /\ self_equal v = true)
      /\ ~ can_draw engine s (VFloat FNaN))
  /\ type_vars body r
     = match r !! KTypeVar with
       | None => (Raise (KeyError KTypeVar), r)
       | Some used =>
           match body (<[KTypeVar := Resolver type_vars_factory]> r) with
           | (Ok a, r1) =>
               match r1 !! KTypeVar with
               | Some _ => (Ok a, <[KTypeVar := used]> (delete KTypeVar r1))
               | None => (Raise (KeyError KTypeVar), r1)
               end
           | (Raise e, r1) => (Raise e, r1)
           end
       end.
Proof.
  split; [|apply type_vars_unfold].
  eexists. split; [reflexivity|]. split.
  - intros v. apply can_draw_type_vars_factory.
  - intros [_ Hnan]%can_draw_type_vars_factory. discriminate.
Qed.

(** With the sample engine only the integer passes the filter. *)
Example type_vars_sample_draws v :
  can_draw Sample.small_engine
    (SFilter (fun inner => self_equal inner)
       (SOneOf [SResolveTypeVar (TyVar "_ValueType")])) v
  <-> v = VInt 1.
Proof.
  rewrite can_draw_type_vars_factory. unfold Sample.small_engine.
  rewrite !elem_of_cons, elem_of_nil. split.
  - intros [[->|[->|[->|[]]]] Hv]; done.
  - intros ->. split; [|done]. right. by left.
Qed.

(** ** Function-typed parameters *)

Lemma pure_functions_factory_callable args return_type :
  last args = Some return_type ->
  pure_functions_factory (TyCallable args)
  = Ok (SFunctions (if (length args =? 1)%nat then LikeNullary
                    else LikeVariadic)
          (SFromType return_type) true).
Proof. intros Hl. unfold pure_functions_factory. by rewrite Hl. Qed.

Lemma accepts_nullary nargs nkwargs :
  accepts LikeNullary nargs nkwargs = true <-> nargs = 0 /\ nkwargs = 0.
Proof.
  unfold accepts. by rewrite andb_true_iff, !Nat.eqb_eq.
Qed.

Section PureFunctionEngine.

(** The engine's side of [st.functions]: the function values it draws,
    what calling one answers, and the state [world] a call could read
    or change besides its result. *)
Variable function_value : Type.
Variable world : Type.
Variable drawn_from : strategy -> function_value -> Prop.
Variable invoke :
  function_value -> list pyval -> list (string * pyval) -> world ->
  outcome pyval * world.

(** What [pure=True] promises: the answer of a call depends on the
    function value and the arguments only, and the call changes
    nothing. *)
Hypothesis functions_pure :
  forall like returns f,
    drawn_from (SFunctions like returns true) f ->
    forall args kwargs w1 w2,
      (invoke f args kwargs w1).1 = (invoke f args kwargs w2).1
      /\ (invoke f args kwargs w1).2 = w1.

(** C6. For a [Callable] alias the factory bound by
    [pure_functions] asks the engine for functions with [pure=True],
    whose results come from [st.from_type] of the declared return type;
    so, by the engine's promise for [pure=True], two calls of a drawn
    function with the same arguments answer the same and change
    nothing.  The signature handed to the engine takes no argument when
    the alias declares no parameter; otherwise it is
    [*args, **kwargs], which takes the declared number of arguments and
    any other number as well. *)
Theorem pure_functions_requests_pure_functions
    (args : list tyexpr) (return_type : tyexpr) :
  last args = Some return_type ->
  exists like,
    pure_functions_factory (TyCallable args)
    = Ok (SFunctions like (SFromType return_type) true)
    /\ like = (if (length args =? 1)%nat then LikeNullary else LikeVariadic)
    /\ accepts like (declared_parameters args) 0 = true
    /\ (declared_parameters args = 0 ->
        forall nargs nkwargs,
          accepts like nargs nkwargs = true <-> nargs = 0 /\ nkwargs = 0)
    /\ (declared_parameters args <> 0 ->
        forall nargs nkwargs, accepts like nargs nkwargs = true)
    /\ (forall f,
          drawn_from (SFunctions like (SFromType return_type) true) f ->
          forall arguments kwargs w1 w2,
            (invoke f arguments kwargs w1).1 = (invoke f arguments kwargs w2).1
            /\ (invoke f arguments kwargs w1).2 = w1).
Proof.
  intros Hlast. eexists. split; [by apply pure_functions_factory_callable|].
  assert (Hlen : length args <> 0).
  { destruct args; [discriminate | done]. }
  unfold declared_parameters.
  split; [done|]. split_and!.
  - destruct (Nat.eqb_spec (length args) 1) as [->|Hne]; done.
  - intros Hzero. rewrite (proj2 (Nat.eqb_eq (length args) 1)) by lia.
    apply accepts_nullary.
  - intros Hpos. rewrite (proj2 (Nat.eqb_neq (length args) 1)) by lia. done.
  - intros f Hf. by eapply functions_pure.
Qed.

End PureFunctionEngine.

Lemma pure_functions_requests_witness :
  last [TyVar "A"; TyVar "B"] = Some (TyVar "B")
  /\ pure_functions_factory (TyCallable [TyVar "A"; TyVar "B"])
     = Ok (SFunctions LikeVariadic (SFromType (TyVar "B")) true)
  /\ (forall (f : Sample.table_function) arguments kwargs w1 w2,
        (Sample.table_invoke f arguments kwargs w1).1
        = (Sample.table_invoke f arguments kwargs w2).1
        /\ (Sample.table_invoke f arguments kwargs w1).2 = w1).
Proof.
  split; [reflexivity|].
  destruct (pure_functions_requests_pure_functions
              Sample.table_function nat Sample.table_drawn_from
              Sample.table_invoke
              (fun _ _ _ _ _ _ _ _ => conj eq_refl eq_refl)
              [TyVar "A"; TyVar "B"] (TyVar "B") eq_refl)
    as (like & Hfactory & -> & _ & _ & _ & Hpure).
  split; [exact Hfactory|].
  intros f. apply Hpure. exact I.
Defined.

(** C6, counterexample: [Callable[[A], B]] declares one parameter, and
    the signature the drawn functions are given also takes a call with
    no argument or with three. *)
Lemma pure_function_signature_is_variadic :
  declared_parameters [TyVar "A"; TyVar "B"] = 1
  /\ pure_functions_factory (TyCallable [TyVar "A"; TyVar "B"])
     = Ok (SFunctions LikeVariadic (SFromType (TyVar "B")) true)
  /\ accepts LikeVariadic 0 0 = true
  /\ accepts LikeVariadic 3 0 = true
  /\ ~ (forall nargs,
          accepts LikeVariadic nargs 0 = true ->
          nargs = declared_parameters [TyVar "A"; TyVar "B"]).
Proof.
  split_and!; try reflexivity.
  intros H. specialize (H 3 eq_refl). discriminate.
Qed.

(** ** The statements at the sample container *)

Lemma maybe_register_container_nesting_witness :
  Sample.engine_table !! KClass (ct_class Sample.Box) = None
  /\ maybe_register_container Sample.Box false
       (maybe_register_container Sample.Box false (ret tt))
       Sample.engine_table
     = (Ok tt, Sample.engine_table)
  /\ Sample.box_table !! KClass (ct_class Sample.Box)
     = Some (Strat (SOpaque 3))
  /\ maybe_register_container Sample.Box false (ret tt) Sample.box_table
     = (Ok tt, Sample.box_table).
Proof.
  destruct sample_engine_table_lookup as (_ & _ & Hbox).
  assert (Hbound : Sample.box_table !! KClass (ct_class Sample.Box)
                   = Some (Strat (SOpaque 3))) by apply lookup_insert_eq.
  split; [exact Hbox|]. split_and!.
  - destruct (maybe_register_container_idempotent_nesting Sample.Box false
                false (ret tt) Sample.engine_table) as (Hnest & _ & Hnew).
    rewrite Hnest, (Hnew Hbox). unfold ret.
    rewrite lookup_insert_eq, delete_insert_eq, delete_id; done.
  - exact Hbound.
  - exact (proj1 (proj2
             (maybe_register_container_idempotent_nesting Sample.Box false
                false (ret tt) Sample.box_table)) _ Hbound).
Defined.

Lemma container_factory_raw_constructor_witness :
  SBuilds (RawInit Sample.Box)
    ∈ (if true && ct_init Sample.Box
       then [SBuilds (RawInit Sample.Box)] else [])
      ++ (if issubclass Sample.Box ApplicativeN
          then [SBuilds (FromValue Sample.Box)] else [])
      ++ (if issubclass Sample.Box ResultLikeN
          then [SBuilds (FromFailure Sample.Box)] else [])
      ++ (if issubclass Sample.Box MaybeLikeN
          then [SBuilds (FromOptional Sample.Box)] else [])
  /\ (true = true
      \/ (issubclass Sample.Box ApplicativeN = false
          /\ issubclass Sample.Box ResultLikeN = false
          /\ issubclass Sample.Box MaybeLikeN = false)).
Proof.
  assert (Hin : SBuilds (RawInit Sample.Box)
    ∈ (if true && ct_init Sample.Box
       then [SBuilds (RawInit Sample.Box)] else [])
      ++ (if issubclass Sample.Box ApplicativeN
          then [SBuilds (FromValue Sample.Box)] else [])
      ++ (if issubclass Sample.Box ResultLikeN
          then [SBuilds (FromFailure Sample.Box)] else [])
      ++ (if issubclass Sample.Box MaybeLikeN
          then [SBuilds (FromOptional Sample.Box)] else [])).
  { cbn [andb ct_init Sample.Box]. apply elem_of_app. left. by left. }
  split; [exact Hin|].
  exact (proj2 (proj2
           (container_factory_surfaces_raw_constructor_only_with_use_init
              Sample.Box true (TyClass Sample.box_class)))
         Sample.Box Hin).
Defined.

Lemma run_check_python36_witness :
  version_lt (3, 6)%nat (3, 7)%nat = true
  /\ run_check (3, 6)%nat
       (published_test Sample.Box Sample.no_settings
          (Sample.Mappable, Sample.identity)).2
       Sample.quiet_source Sample.engine_table
     = (Raise (RuntimeError python36_message), Sample.engine_table).
Proof.
  split; [reflexivity|].
  exact (proj1 (proj2
           (run_check_tests_python_version_first (3, 6)%nat
              (published_test Sample.Box Sample.no_settings
                 (Sample.Mappable, Sample.identity)).2
              Sample.quiet_source Sample.engine_table))
         eq_refl).
Defined.

(** On a supported runtime the sample check runs to its end and leaves
    the engine's table as it was. *)
Example run_check_sample_restores :
  run_check (3, 8)%nat
    (published_test Sample.Box Sample.no_settings
       (Sample.Mappable, Sample.identity)).2
    Sample.quiet_source Sample.engine_table
  = (Ok tt, Sample.engine_table).
Proof.
  destruct sample_engine_table_lookup as (Htv & Hfn & _).
  eapply run_law_restores_table; [reflexivity | exact Htv | exact Hfn | |].
  - apply sample_interfaces_free.
  - reflexivity.
Qed.

(** * Further properties of the module *)

(** ** Keys a scope does not touch *)

Lemma preserves_key_ret {A} k (a : A) : preserves_key k (ret a).
Proof. by intros r. Qed.

Lemma preserves_key_raise {A} k e : preserves_key k (@raise A e).
Proof. by intros r. Qed.

Lemma preserves_key_bind {A B} k (m : M A) (f : A -> M B) :
  preserves_key k m -> (forall a, preserves_key k (f a)) ->
  preserves_key k (bind m f).
Proof.
  intros Hm Hf r. unfold bind. specialize (Hm r).
  destruct (m r) as [[a|e] r1]; cbn in *; [|done].
  by rewrite Hf.
Qed.

Lemma preserves_key_contains k k' : preserves_key k (contains k').
Proof. by intros r. Qed.

Lemma preserves_key_getitem k k' : preserves_key k (getitem k').
Proof. intros r. unfold getitem. by destruct (r !! k'). Qed.

Lemma preserves_key_pop k k' : k <> k' -> preserves_key k (pop k').
Proof.
  intros Hne r. unfold pop. destruct (r !! k'); [|done].
  cbn. by rewrite lookup_delete_ne.
Qed.

Lemma preserves_key_register k k' e :
  k <> k' -> preserves_key k (register_type_strategy k' e).
Proof. intros Hne r. cbn. by rewrite lookup_insert_ne. Qed.

Lemma preserves_key_for_each {A} k (xs : list A) (f : A -> M unit) :
  (forall x, x ∈ xs -> preserves_key k (f x)) ->
  preserves_key k (for_each xs f).
Proof.
  induction xs as [|x xs IH]; intros Hf; [by intros r|].
  cbn [for_each]. apply preserves_key_bind.
  - apply Hf. by left.
  - intros _. apply IH. intros y Hy. apply Hf. by right.
Qed.

Lemma preserves_key_maybe_register_container {A} k ct ui (body : M A) :
  k <> KClass (ct_class ct) -> preserves_key k body ->
  preserves_key k (maybe_register_container ct ui body).
Proof.
  intros Hne Hbody. unfold maybe_register_container.
  apply preserves_key_bind; [apply preserves_key_contains|]. intros known.
  apply preserves_key_bind.
  { destruct (negb known);
      [by apply preserves_key_register | apply preserves_key_ret]. }
  intros _. apply preserves_key_bind; [done|]. intros a.
  apply preserves_key_bind; [|intros _; apply preserves_key_ret].
  destruct (negb known); [|apply preserves_key_ret].
  apply preserves_key_bind; [by apply preserves_key_pop|].
  intros _. apply preserves_key_ret.
Qed.

Lemma preserves_key_container_strategies {A} k ct settings (body : M A) :
  (forall c, c ∈ mro ct -> k <> KClass c) -> preserves_key k body ->
  preserves_key k (container_strategies ct settings body).
Proof.
  intros Hne Hbody. unfold container_strategies.
  assert (Hks : forall i, i ∈ our_interfaces ct -> k <> KClass i).
  { intros i [Hi _]%elem_of_our_interfaces. by apply Hne. }
  apply preserves_key_bind.
  { apply preserves_key_for_each. intros i Hi.
    apply preserves_key_register. by apply Hks. }
  intros _. apply preserves_key_bind.
  { apply preserves_key_maybe_register_container; [|done].
    apply Hne. by left. }
  intros a. apply preserves_key_bind; [|intros _; apply preserves_key_ret].
  apply preserves_key_for_each. intros i Hi.
  apply preserves_key_bind; [|intros _; apply preserves_key_ret].
  apply preserves_key_pop. by apply Hks.
Qed.

Lemma preserves_key_pure_functions {A} k (body : M A) :
  k <> KCallable -> preserves_key k body ->
  preserves_key k (pure_functions body).
Proof.
  intros Hne Hbody. unfold pure_functions.
  apply preserves_key_bind; [apply preserves_key_getitem|]. intros used.
  apply preserves_key_bind; [by apply preserves_key_register|]. intros _.
  apply preserves_key_bind; [done|]. intros a.
  apply preserves_key_bind; [by apply preserves_key_pop|]. intros _.
  apply preserves_key_bind; [by apply preserves_key_register|]. intros _.
  apply preserves_key_ret.
Qed.

Lemma preserves_key_type_vars {A} k (body : M A) :
  k <> KTypeVar -> preserves_key k body ->
  preserves_key k (type_vars body).
Proof.
  intros Hne Hbody. unfold type_vars.
  apply preserves_key_bind; [apply preserves_key_getitem|]. intros used.
  apply preserves_key_bind; [by apply preserves_key_register|]. intros _.
  apply preserves_key_bind; [done|]. intros a.
  apply preserves_key_bind; [by apply preserves_key_pop|]. intros _.
  apply preserves_key_bind; [by apply preserves_key_register|]. intros _.
  apply preserves_key_ret.
Qed.

(** X4. Whatever the runtime, the table and the way the run ends, a run of
    [_run_law] leaves alone the entry of every key other than
    [Callable], [TypeVar] and the classes of the container's
    method-resolution order, provided the draw does. *)
Theorem run_law_leaves_other_keys_alone
    (_pyversion : nat * nat) (container_type : Lawful) (law : Law)
    (settings : _Settings) (source : DataObject) (k : regkey)
    (r : registry) :
  k <> KCallable ->
  k <> KTypeVar ->
  (forall c, c ∈ mro container_type -> k <> KClass c) ->
  (forall s, preserves_key k (draw source s)) ->
  (_run_law _pyversion container_type law settings source r).2 !! k = r !! k.
Proof.
  intros Hfn Htv Hmro Hdraw. revert r.
  change (preserves_key k
            (_run_law _pyversion container_type law settings source)).
  unfold _run_law. destruct (version_lt _ _); [apply preserves_key_raise|].
  apply preserves_key_type_vars; [done|].
  apply preserves_key_pure_functions; [done|].
  by apply preserves_key_container_strategies.
Qed.

Lemma run_law_leaves_other_keys_alone_witness :
  (_run_law (3, 8)%nat Sample.Box Sample.identity Sample.no_settings
     Fixtures.failing_source
     (<[KClass (PyClass (Some "builtins") "int") := Strat (SOpaque 9)]>
        Sample.engine_table)).2
    !! KClass (PyClass (Some "builtins") "int")
  = Some (Strat (SOpaque 9)).
Proof.
  rewrite (run_law_leaves_other_keys_alone (3, 8)%nat Sample.Box
             Sample.identity Sample.no_settings Fixtures.failing_source
             (KClass (PyClass (Some "builtins") "int"))).
  - apply lookup_insert_eq.
  - discriminate.
  - discriminate.
  - intros c Hc [= <-]. vm_compute in Hc.
    apply list_elem_of_In in Hc.
    destruct Hc as [Hc|[Hc|[Hc|[]]]]; discriminate.
  - intros s. apply preserves_key_raise.
Defined.

(** ** The table during a draw *)

Lemma lookup_container_bound ct ui r k :
  container_bound ct ui r !! k
  = if decide (k = KClass (ct_class ct))
    then Some (match r !! KClass (ct_class ct) with
               | Some previous => previous
               | None => Resolver (_create_container_factory ct ui)
               end)
    else r !! k.
Proof.
  unfold container_bound.
  destruct (r !! KClass (ct_class ct)) as [e|] eqn:Hk;
    case_decide as Heq; subst; try done.
  - by rewrite lookup_insert_eq.
  - by rewrite lookup_insert_ne.
Qed.

Lemma lookup_interfaces_bound ct settings r k :
  interfaces_bound ct settings r !! k
  = if bool_decide (k ∈ KClass <$> our_interfaces ct)
    then Some (Resolver (_create_container_factory ct (use_init settings)))
    else r !! k.
Proof. apply lookup_bind_classes. Qed.

(** Binding again what is bound already changes nothing. *)
Lemma bind_classes_bound e ks r :
  (forall i, i ∈ ks -> r !! KClass i = Some e) ->
  bind_classes e ks r = r.
Proof.
  intros Hb. apply map_eq. intros k. rewrite lookup_bind_classes.
  case_bool_decide as Hin; [|done].
  apply list_elem_of_fmap in Hin as (i & -> & Hi). symmetry. by apply Hb.
Qed.

Lemma container_bound_known ct ui r :
  is_Some (r !! KClass (ct_class ct)) -> container_bound ct ui r = r.
Proof. intros [e He]. unfold container_bound. by rewrite He. Qed.

Lemma scope_table_interface ct settings r i :
  i ∈ our_interfaces ct ->
  scope_table ct settings r !! KClass i
  = Some (Resolver (_create_container_factory ct (use_init settings))).
Proof.
  intros Hi. unfold scope_table.
  assert (Hb : interfaces_bound ct settings r !! KClass i
               = Some (Resolver (_create_container_factory ct
                                   (use_init settings)))).
  { rewrite lookup_interfaces_bound, bool_decide_eq_true_2; [done|].
    apply list_elem_of_fmap. eauto. }
  rewrite lookup_container_bound. case_decide as Heq; [|done].
  rewrite <- Heq, Hb. done.
Qed.

Lemma scope_table_own ct settings r :
  is_Some (scope_table ct settings r !! KClass (ct_class ct)).
Proof.
  unfold scope_table. rewrite lookup_container_bound.
  rewrite decide_True by done. eauto.
Qed.

Lemma scope_table_other ct settings r k :
  (forall c, k <> KClass c) -> scope_table ct settings r !! k = r !! k.
Proof.
  intros Hk. unfold scope_table. rewrite lookup_container_bound.
  rewrite decide_False by apply Hk.
  rewrite lookup_interfaces_bound, bool_decide_eq_false_2; [done|].
  intros (c & -> & _)%list_elem_of_fmap. by apply (Hk c).
Qed.

(** Entering the interface scope in the table it has set up changes
    nothing more. *)
Lemma scope_table_idempotent ct settings r :
  scope_table ct settings (scope_table ct settings r)
  = scope_table ct settings r.
Proof.
  unfold scope_table at 1.
  assert (Hib : interfaces_bound ct settings (scope_table ct settings r)
                = scope_table ct settings r).
  { apply bind_classes_bound. intros i Hi. by apply scope_table_interface. }
  rewrite Hib. apply container_bound_known, scope_table_own.
Qed.

Lemma draw_table_type_var ct settings r :
  draw_table ct settings r !! KTypeVar = Some (Resolver type_vars_factory).
Proof.
  unfold draw_table. rewrite scope_table_other by done.
  rewrite lookup_insert_ne by done. apply lookup_insert_eq.
Qed.

Lemma draw_table_callable ct settings r :
  draw_table ct settings r !! KCallable
  = Some (Resolver pure_functions_factory).
Proof.
  unfold draw_table. rewrite scope_table_other by done.
  apply lookup_insert_eq.
Qed.



(** X2. An exception raised by the draw (a falsified law, an engine error)
    is the outcome of the run, unchanged and with the table as the draw
    left it; a run that ends normally had a draw that ended normally. *)
Theorem run_law_reports_the_draw_outcome
    (_pyversion : nat * nat) (container_type : Lawful) (law : Law)
    (settings : _Settings) (source : DataObject) (r : registry)
    (used_tv used_fn : entry) :
  version_lt _pyversion (3, 7)%nat = false ->
  r !! KTypeVar = Some used_tv ->
  r !! KCallable = Some used_fn ->
  (forall e r1,
     draw source (SBuilds (LawDefinition law))
       (draw_table container_type settings r) = (Raise e, r1) ->
     _run_law _pyversion container_type law settings source r = (Raise e, r1))
  /\ (forall r2,
        _run_law _pyversion container_type law settings source r = (Ok tt, r2) ->
        exists r1,
          draw source (SBuilds (LawDefinition law))
            (draw_table container_type settings r) = (Ok tt, r1)).
Proof.
  intros Hv Htv Hfn. split.
  - intros e r1. by eapply run_law_draw_raises.
  - intros r2 Hrun.
    destruct (draw source _ (draw_table container_type settings r))
      as [[[]|e] r1] eqn:Hd; [eauto|].
    rewrite (run_law_draw_raises _ _ _ _ _ _ _ _ _ _ Hv Htv Hfn Hd) in Hrun.
    discriminate.
Qed.

Lemma run_law_reports_the_draw_outcome_witness :
  _run_law (3, 8)%nat Sample.Box Sample.identity Sample.no_settings
    Fixtures.failing_source Sample.engine_table
  = (Raise (Failure 7),
     draw_table Sample.Box Sample.no_settings Sample.engine_table).
Proof.
  destruct sample_engine_table_lookup as (Htv & Hfn & _).
  exact (proj1 (run_law_reports_the_draw_outcome (3, 8)%nat Sample.Box
                  Sample.identity Sample.no_settings Fixtures.failing_source
                  Sample.engine_table _ _ eq_refl Htv Hfn)
           (Failure 7) _ eq_refl).
Defined.

(** ** A run after a failed run *)

Lemma draw_table_idempotent ct settings r :
  draw_table ct settings (draw_table ct settings r) = draw_table ct settings r.
Proof.
  unfold draw_table at 1.
  rewrite (insert_id _ KTypeVar) by apply draw_table_type_var.
  rewrite (insert_id _ KCallable) by apply draw_table_callable.
  unfold draw_table. apply scope_table_idempotent.
Qed.

Lemma unbind_classes_other ks r k :
  (forall c, k <> KClass c) -> unbind_classes ks r !! k = r !! k.
Proof.
  intros Hk. rewrite lookup_unbind_classes, bool_decide_eq_false_2; [done|].
  intros (c & -> & _)%list_elem_of_fmap. by apply (Hk c).
Qed.

Lemma insert_delete_bound (k : regkey) (e : entry) (r : registry) :
  r !! k = Some e -> <[k := e]> (delete k r) = r.
Proof. intros Hk. rewrite insert_delete_eq. by apply insert_id. Qed.

(** X3. A run whose draw fails leaves the module's factories in the table.
    A later run that succeeds then pops the interface keys, but it puts
    back under [TypeVar] and [Callable] what it read at its own entry,
    the module's factories: the engine's resolvers are not in the table
    any more. *)
Theorem run_after_failed_run_keeps_module_factories
    (_pyversion : nat * nat) (container_type : Lawful) (law law' : Law)
    (settings : _Settings) (source source' : DataObject) (r : registry)
    (used_tv used_fn : entry) (e : exn) :
  version_lt _pyversion (3, 7)%nat = false ->
  r !! KTypeVar = Some used_tv ->
  r !! KCallable = Some used_fn ->
  draw source (SBuilds (LawDefinition law))
    (draw_table container_type settings r)
  = (Raise e, draw_table container_type settings r) ->
  draw source' (SBuilds (LawDefinition law'))
    (draw_table container_type settings r)
  = (Ok tt, draw_table container_type settings r) ->
  let after_failure := draw_table container_type settings r in
  let after_success :=
    unbind_classes (our_interfaces container_type) after_failure in
  _run_law _pyversion container_type law settings source r
  = (Raise e, after_failure)
  /\ _run_law _pyversion container_type law' settings source' after_failure
     = (Ok tt, after_success)
  /\ after_success !! KTypeVar = Some (Resolver type_vars_factory)
  /\ after_success !! KCallable = Some (Resolver pure_functions_factory)
  /\ (forall i, i ∈ our_interfaces container_type ->
                after_success !! KClass i = None).
Proof.
  intros Hv Htv Hfn Hfail Hok after_failure after_success.
  assert (Htv' : after_success !! KTypeVar = Some (Resolver type_vars_factory)).
  { unfold after_success. rewrite unbind_classes_other by done.
    apply draw_table_type_var. }
  assert (Hfn' : after_success !! KCallable
                 = Some (Resolver pure_functions_factory)).
  { unfold after_success. rewrite unbind_classes_other by done.
    apply draw_table_callable. }
  split_and!; try done.
  - by eapply run_law_draw_raises.
  - rewrite run_law_supported_python by done.
    rewrite type_vars_unfold.
    unfold after_failure at 1. rewrite draw_table_type_var.
    rewrite (insert_id _ KTypeVar) by apply draw_table_type_var.
    rewrite pure_functions_unfold.
    fold after_failure. unfold after_failure at 1.
    rewrite draw_table_callable.
    rewrite (insert_id _ KCallable) by apply draw_table_callable.
    rewrite container_strategies_unfold.
    assert (Hib : interfaces_bound container_type settings after_failure
                  = after_failure).
    { apply bind_classes_bound. intros i Hi.
      by apply scope_table_interface. }
    rewrite Hib.
    rewrite maybe_register_container_known by apply scope_table_own.
    fold after_failure in Hok. rewrite Hok.
    rewrite for_each_pop;
      [| apply NoDup_our_interfaces
       | intros i Hi; unfold after_failure, draw_table;
         rewrite scope_table_interface by done; eauto].
    fold after_success. rewrite Hfn'.
    rewrite insert_delete_bound by done. rewrite Htv'.
    by rewrite insert_delete_bound.
  - intros i Hi. unfold after_success.
    rewrite lookup_unbind_classes, bool_decide_eq_true_2; [done|].
    apply list_elem_of_fmap. eauto.
Qed.

Lemma run_after_failed_run_witness :
  _run_law (3, 8)%nat Sample.Box Sample.identity Sample.no_settings
    Sample.quiet_source
    (draw_table Sample.Box Sample.no_settings Sample.engine_table)
  = (Ok tt,
     unbind_classes (our_interfaces Sample.Box)
       (draw_table Sample.Box Sample.no_settings Sample.engine_table))
  /\ unbind_classes (our_interfaces Sample.Box)
       (draw_table Sample.Box Sample.no_settings Sample.engine_table)
       !! KCallable
     = Some (Resolver pure_functions_factory)
  /\ Sample.engine_table !! KCallable = Some (Strat (SOpaque 0)).
Proof.
  destruct sample_engine_table_lookup as (Htv & Hfn & _).
  destruct (run_after_failed_run_keeps_module_factories (3, 8)%nat Sample.Box
              Sample.identity Sample.identity Sample.no_settings
              Fixtures.failing_source Sample.quiet_source Sample.engine_table
              _ _ (Failure 7) eq_refl Htv Hfn eq_refl eq_refl)
    as (_ & Hsecond & _ & Hcallable & _).
  split; [exact Hsecond|]. split; [exact Hcallable | exact Hfn].
Defined.

(** ** The interface scope inside itself *)

Lemma container_strategies_in_scope_table {A} ct settings (body : M A) r a :
  body (scope_table ct settings r) = (Ok a, scope_table ct settings r) ->
  container_strategies ct settings body (scope_table ct settings r)
  = (Ok a, unbind_classes (our_interfaces ct) (scope_table ct settings r)).
Proof.
  intros Hb. rewrite container_strategies_unfold.
  assert (Hib : interfaces_bound ct settings (scope_table ct settings r)
                = scope_table ct settings r).
  { apply bind_classes_bound. intros i Hi. by apply scope_table_interface. }
  rewrite Hib.
  rewrite maybe_register_container_known by apply scope_table_own.
  rewrite Hb.
  rewrite for_each_pop;
    [done
    | apply NoDup_our_interfaces
    | intros i Hi; rewrite scope_table_interface by done; eauto].
Qed.

(** X5. Unlike the default-container scope, [container_strategies] cannot be
    opened inside itself for the same container: the inner scope pops
    the interface keys on its way out, and the outer scope, popping them
    again, raises [KeyError] for one of them. *)
Theorem container_strategies_inside_itself_raises_key_error
    {A} (container_type : Lawful) (settings : _Settings) (body : M A)
    (r : registry) (a : A) :
  our_interfaces container_type <> [] ->
  body (scope_table container_type settings r)
  = (Ok a, scope_table container_type settings r) ->
  exists i r',
    i ∈ our_interfaces container_type
    /\ container_strategies container_type settings
         (container_strategies container_type settings body) r
       = (Raise (KeyError (KClass i)), r').
Proof.
  intros Hne Hb.
  destruct (our_interfaces container_type) as [|i rest] eqn:Hks; [done|].
  exists i.
  set (T := scope_table container_type settings r) in *.
  assert (Hi : i ∈ our_interfaces container_type) by (rewrite Hks; by left).
  assert (Hgone : unbind_classes (our_interfaces container_type) T
                    !! KClass i = None).
  { rewrite lookup_unbind_classes, bool_decide_eq_true_2; [done|].
    apply list_elem_of_fmap. eauto. }
  pose proof (container_strategies_in_scope_table _ _ _ _ _ Hb) as Hinner.
  fold T in Hinner.
  rewrite (container_strategies_unfold _ _ (container_strategies _ _ _)).
  destruct (interfaces_bound container_type settings r
              !! KClass (ct_class container_type)) as [e|] eqn:Hown.
  - assert (HT : T = interfaces_bound container_type settings r).
    { unfold T, scope_table. apply container_bound_known. eauto. }
    rewrite maybe_register_container_known by eauto.
    rewrite <- HT, Hinner, Hks, for_each_pop_missing by (by rewrite <- Hks).
    eexists. split; [by left | done].
  - assert (HT : T = <[KClass (ct_class container_type) :=
                         Resolver (_create_container_factory container_type
                                     (use_init settings))]>
                       (interfaces_bound container_type settings r)).
    { unfold T, scope_table, container_bound. by rewrite Hown. }
    rewrite maybe_register_container_unknown by done.
    rewrite <- HT, Hinner.
    assert (Hstill : is_Some (unbind_classes (our_interfaces container_type) T
                                !! KClass (ct_class container_type))).
    { rewrite lookup_unbind_classes, bool_decide_eq_false_2.
      - apply scope_table_own.
      - intros (c & [= Hc] & Hin)%list_elem_of_fmap. rewrite <- Hc in Hin.
        pose proof (interfaces_bound_is_Some container_type settings r _ Hin)
          as [? Hs]. congruence. }
    destruct Hstill as [e' He']. rewrite He'.
    rewrite Hks, for_each_pop_missing.
    + eexists. split; [by left | done].
    + rewrite <- Hks.
      destruct (decide (KClass i = KClass (ct_class container_type)))
        as [->|Hd]; [apply lookup_delete_eq|].
      by rewrite lookup_delete_ne.
Qed.

Lemma container_strategies_inside_itself_witness :
  our_interfaces Sample.Box <> []
  /\ exists i r',
       i ∈ our_interfaces Sample.Box
       /\ container_strategies Sample.Box Sample.no_settings
            (container_strategies Sample.Box Sample.no_settings (ret tt))
            Sample.engine_table
          = (Raise (KeyError (KClass i)), r').
Proof.
  assert (Hne : our_interfaces Sample.Box <> []) by (by vm_compute).
  split; [exact Hne|].
  exact (container_strategies_inside_itself_raises_key_error Sample.Box
           Sample.no_settings (ret tt) Sample.engine_table tt Hne eq_refl).
Defined.

(** ** What the container factory builds *)

(** X8. For every requested type the factory answers the same union.  Its
    alternatives are [st.builds] of the container itself or of one of
    its own three class methods, each at most once; [from_value],
    [from_failure] and [from_optional] are among them exactly when the
    container is a subclass of [ApplicativeN], [ResultLikeN] and
    [MaybeLikeN]; and the union is empty exactly when the container has
    none of the four ways of construction. *)
Theorem container_factory_alternatives
    (container_type : Lawful) (use_init : bool) :
  exists alternatives,
    (forall requested,
       _create_container_factory container_type use_init requested
       = Ok (SOneOf alternatives))
    /\ NoDup alternatives
    /\ (forall s, s ∈ alternatives ->
          s ∈ [SBuilds (RawInit container_type);
               SBuilds (FromValue container_type);
               SBuilds (FromFailure container_type);
               SBuilds (FromOptional container_type)])
    /\ (SBuilds (FromValue container_type) ∈ alternatives <->
        ApplicativeN ∈ mro container_type)
    /\ (SBuilds (FromFailure container_type) ∈ alternatives <->
        ResultLikeN ∈ mro container_type)
    /\ (SBuilds (FromOptional container_type) ∈ alternatives <->
        MaybeLikeN ∈ mro container_type)
    /\ (alternatives = [] <->
        use_init && ct_init container_type = false
        /\ (ApplicativeN ∉ mro container_type)
        /\ (ResultLikeN ∉ mro container_type)
        /\ (MaybeLikeN ∉ mro container_type)).
Proof.
  unfold _create_container_factory.
  pose proof (issubclass_spec container_type ApplicativeN) as Happ.
  pose proof (issubclass_spec container_type ResultLikeN) as Hres.
  pose proof (issubclass_spec container_type MaybeLikeN) as Hmay.
  destruct (use_init && ct_init container_type),
    (issubclass container_type ApplicativeN),
    (issubclass container_type ResultLikeN),
    (issubclass container_type MaybeLikeN);
    cbn [app]; eexists; (split; [intros; reflexivity|]);
    (split; [repeat (apply NoDup_cons; split;
                     [rewrite ?elem_of_cons, elem_of_nil;
                      intuition discriminate|]);
             apply NoDup_nil_2|]);
    (split; [intros s; rewrite ?elem_of_cons, ?elem_of_nil; tauto|]);
    rewrite ?elem_of_cons, ?elem_of_nil;
    intuition (try discriminate; try done).
Qed.

(** ** More on what [check_all_laws] publishes *)

Lemma published_names_spec ct settings :
  (map (published_test ct settings) (law_pairs ct)).*1 = published_names ct.
Proof.
  unfold published_names. induction (law_pairs ct) as [|p ps IH]; [done|].
  cbn [map fmap list_fmap]. cbn [map fmap list_fmap] in IH. by rewrite IH.
Qed.

(** What a published name is bound to does not depend on what the
    module held before. *)
Lemma lookup_publish_all_base tests m m' name :
  name ∈ tests.*1 ->
  mod_dict (publish_all tests m) !! name
  = mod_dict (publish_all tests m') !! name.
Proof.
  revert m m'. induction tests as [|[n t] tests IH]; intros m m' Hn.
  - by apply elem_of_nil in Hn.
  - change (publish_all ((n, t) :: tests) m)
      with (publish_all tests (setattr m n t)).
    change (publish_all ((n, t) :: tests) m')
      with (publish_all tests (setattr m' n t)).
    destruct (decide (name ∈ tests.*1)) as [Hin|Hout]; [by apply IH|].
    rewrite fmap_cons, elem_of_cons in Hn. destruct Hn as [->|Hn]; [|done].
    rewrite !lookup_publish_all_other by done. cbn.
    by rewrite !lookup_insert_eq.
Qed.

(** X9. [check_all_laws] leaves the calling module exactly as it was if and
    only if the container declares no law at all. *)
Theorem check_all_laws_without_laws
    (container_type : Lawful)
    (settings_kwargs : option (list (string * pyval))) (use_init : bool)
    (module : py_module) :
  check_all_laws container_type settings_kwargs use_init module = module
  <-> total_laws container_type = 0.
Proof.
  rewrite check_all_laws_publish_all, <- length_law_pairs. split.
  - intros H. apply (f_equal mod_setattr_calls) in H.
    rewrite mod_setattr_calls_publish_all in H.
    apply (f_equal length) in H. rewrite length_app, length_map in H. lia.
  - intros Hlen. destruct (law_pairs container_type); [done | discriminate].
Qed.

(** X10. Calling [check_all_laws] a second time for the same container and
    settings repeats every [setattr] call and leaves the namespace as
    the first call left it. *)
Theorem check_all_laws_twice
    (container_type : Lawful)
    (settings_kwargs : option (list (string * pyval))) (use_init : bool)
    (module : py_module) :
  let once := check_all_laws container_type settings_kwargs use_init module in
  let twice := check_all_laws container_type settings_kwargs use_init once in
  mod_dict twice = mod_dict once
  /\ length (mod_setattr_calls twice)
     = length (mod_setattr_calls module) + 2 * total_laws container_type.
Proof.
  intros once twice. unfold twice, once.
  rewrite !check_all_laws_publish_all.
  set (tests := map _ (law_pairs container_type)).
  split.
  - apply map_eq. intros name.
    destruct (decide (name ∈ tests.*1)) as [Hin|Hout].
    + by apply lookup_publish_all_base.
    + by rewrite lookup_publish_all_other.
  - rewrite !mod_setattr_calls_publish_all, !length_app.
    unfold tests. rewrite length_map, length_law_pairs. lia.
Qed.

(** X11. When no name published for one container is a name published for
    the other, the namespace after checking both does not depend on
    which was checked first. *)
Theorem check_all_laws_order_irrelevant
    (first second : Lawful)
    (kwargs kwargs' : option (list (string * pyval))) (ui ui' : bool)
    (module : py_module) :
  (forall name, name ∈ published_names first ->
                name ∉ published_names second) ->
  mod_dict (check_all_laws second kwargs' ui'
              (check_all_laws first kwargs ui module))
  = mod_dict (check_all_laws first kwargs ui
                (check_all_laws second kwargs' ui' module)).
Proof.
  intros Hdisjoint. rewrite !check_all_laws_publish_all.
  set (tests := map _ (law_pairs first)).
  set (tests' := map _ (law_pairs second)).
  assert (Hn : tests.*1 = published_names first)
    by apply published_names_spec.
  assert (Hn' : tests'.*1 = published_names second)
    by apply published_names_spec.
  apply map_eq. intros name.
  destruct (decide (name ∈ tests.*1)) as [Hin|Hout].
  - assert (Hout' : name ∉ tests'.*1).
    { rewrite Hn'. apply Hdisjoint. by rewrite <- Hn. }
    rewrite (lookup_publish_all_other tests') by done.
    by apply lookup_publish_all_base.
  - rewrite (lookup_publish_all_other tests _ name) by done.
    destruct (decide (name ∈ tests'.*1)) as [Hin'|Hout'].
    + by apply lookup_publish_all_base.
    + by rewrite !lookup_publish_all_other.
Qed.

Lemma check_all_laws_order_irrelevant_witness :
  mod_dict (check_all_laws Fixtures.Result None false
              (check_all_laws Sample.Box None false Sample.empty_module))
  = mod_dict (check_all_laws Sample.Box None false
                (check_all_laws Fixtures.Result None false
                   Sample.empty_module)).
Proof.
  apply (check_all_laws_order_irrelevant Sample.Box Fixtures.Result).
  intros name Hname Hname'. vm_compute in Hname, Hname'.
  apply list_elem_of_In in Hname. apply list_elem_of_In in Hname'.
  destruct Hname as [<-|[]].
  destruct Hname' as [H|[H|[H|[]]]]; discriminate.
Defined.

(** ** Distinct names for the laws of one interface *)

Lemma append_inj_l s a b : s +:+ a = s +:+ b -> a = b.
Proof.
  induction s as [|c s IH]; [done|].
  intros [= H]. by apply IH.
Qed.

Lemma test_name_inj_law ct interface law law' :
  test_name ct interface law = test_name ct interface law' ->
  law_name law = law_name law'.
Proof.
  unfold test_name. intros H.
  repeat apply append_inj_l in H. done.
Qed.

(** X12. Laws of one interface with pairwise distinct names are published
    under pairwise distinct names; so for a container whose laws all
    belong to one interface, every law has its own test in the
    namespace after [check_all_laws]. *)
Theorem check_all_laws_single_interface
    (container_type : Lawful) (interface : pyclass) (laws : list Law)
    (settings_kwargs : option (list (string * pyval))) (use_init : bool)
    (module : py_module) :
  ct_laws container_type = [(interface, laws)] ->
  NoDup (law_name <$> laws) ->
  NoDup (published_names container_type)
  /\ (forall law, law ∈ laws ->
        tf_law <$> mod_dict (check_all_laws container_type settings_kwargs
                               use_init module)
                     !! test_name container_type interface law
        = Some law).
Proof.
  intros Hlaws Hnd.
  assert (Hpairs : law_pairs container_type = map (pair interface) laws).
  { unfold law_pairs. rewrite Hlaws. cbn. by rewrite app_nil_r. }
  assert (Hnames : NoDup (published_names container_type)).
  { unfold published_names. rewrite Hpairs, map_map. cbn [fst snd].
    apply (NoDup_fmap_2_strong (test_name container_type interface)).
    - intros l l' Hl Hl' Heq%test_name_inj_law.
      apply NoDup_fmap_1 in Hnd as Hnd'.
      destruct l as [n d], l' as [n' d']. cbn in Heq. subst n'.
      apply list_elem_of_lookup in Hl as [j Hj].
      apply list_elem_of_lookup in Hl' as [j' Hj'].
      assert (j = j') as <-.
      { apply (NoDup_lookup (law_name <$> laws) j j' n); [done| |];
          rewrite list_lookup_fmap; [by rewrite Hj | by rewrite Hj']. }
      congruence.
    - by apply NoDup_fmap_1 in Hnd. }
  split; [done|]. intros law Hlaw.
  rewrite check_all_laws_publish_all.
  erewrite lookup_publish_all_NoDup; cycle 1.
  - by rewrite published_names_spec.
  - apply list_elem_of_fmap. exists (interface, law). split; [reflexivity|].
    rewrite Hpairs. apply list_elem_of_fmap. eauto.
  - reflexivity.
Qed.

Lemma check_all_laws_single_interface_witness :
  NoDup (law_name <$> [Sample.identity; Fixtures.associative])
  /\ NoDup (published_names Fixtures.Crate)
  /\ published_names Fixtures.Crate
     = ["test_crate_mappable_identity"; "test_crate_mappable_associative"]
  /\ tf_law <$> mod_dict (check_all_laws Fixtures.Crate None false
                            Sample.empty_module)
                  !! test_name Fixtures.Crate Sample.Mappable Sample.identity
     = Some Sample.identity
  /\ tf_law <$> mod_dict (check_all_laws Fixtures.Crate None false
                            Sample.empty_module)
                  !! test_name Fixtures.Crate Sample.Mappable
                       Fixtures.associative
     = Some Fixtures.associative.
Proof.
  assert (Hnd : NoDup (law_name <$> [Sample.identity; Fixtures.associative])).
  { cbn. apply NoDup_cons. split; [|apply NoDup_singleton].
    rewrite list_elem_of_singleton. discriminate. }
  split; [exact Hnd|].
  destruct (check_all_laws_single_interface Fixtures.Crate Sample.Mappable
              [Sample.identity; Fixtures.associative] None false
              Sample.empty_module eq_refl Hnd)
    as [Hnames Hfind].
  split; [exact Hnames|]. split; [reflexivity|]. split.
  - apply Hfind. by left.
  - apply Hfind. right. by left.
Defined.

(** ** Nesting and loop order of the scopes *)

(** X6. [pure_functions] and [type_vars] can be opened inside themselves:
    for every body and table, however the body ends, the scope opened
    twice behaves as the scope opened once. *)
Theorem resolver_scopes_idempotent_nesting {A} (body : M A) (r : registry) :
  pure_functions (pure_functions body) r = pure_functions body r
  /\ type_vars (type_vars body) r = type_vars body r.
Proof.
  split.
  - rewrite (pure_functions_unfold (pure_functions body)).
    rewrite (pure_functions_unfold body r).
    destruct (r !! KCallable) as [used|]; [|done].
    rewrite pure_functions_unfold, lookup_insert_eq, insert_insert_eq.
    destruct (body _) as [[a|e] r2]; [|done].
    destruct (r2 !! KCallable) as [e2|]; [|done].
    rewrite lookup_insert_eq.
    by rewrite delete_insert_eq, delete_delete_eq.
  - rewrite (type_vars_unfold (type_vars body)).
    rewrite (type_vars_unfold body r).
    destruct (r !! KTypeVar) as [used|]; [|done].
    rewrite type_vars_unfold, lookup_insert_eq, insert_insert_eq.
    destruct (body _) as [[a|e] r2]; [|done].
    destruct (r2 !! KTypeVar) as [e2|]; [|done].
    rewrite lookup_insert_eq.
    by rewrite delete_insert_eq, delete_delete_eq.
Qed.

(** X7. The order in which the registration loop and the removal loop of
    [container_strategies] visit the set [our_interfaces] does not
    matter: any two orders give the same table after registration, and
    the same table after removal when every class is bound. *)
Theorem interface_loops_order_irrelevant
    (e : entry) (ks ks' : list pyclass) (r : registry) :
  ks ≡ₚ ks' ->
  for_each ks (fun i => register_type_strategy (KClass i) e) r
  = for_each ks' (fun i => register_type_strategy (KClass i) e) r
  /\ (NoDup ks ->
      (forall i, i ∈ ks -> is_Some (r !! KClass i)) ->
      for_each ks (fun i => pop (KClass i) ;; ret tt) r
      = for_each ks' (fun i => pop (KClass i) ;; ret tt) r).
Proof.
  intros Hperm.
  assert (Hmem : forall k, k ∈ KClass <$> ks <-> k ∈ KClass <$> ks').
  { intros k. by rewrite Hperm. }
  split.
  - rewrite !for_each_register. f_equal. apply map_eq. intros k.
    rewrite !lookup_bind_classes.
    by rewrite (bool_decide_ext _ _ (Hmem k)).
  - intros Hnd Hall.
    rewrite !for_each_pop; try done.
    + f_equal. apply map_eq. intros k. rewrite !lookup_unbind_classes.
      by rewrite (bool_decide_ext _ _ (Hmem k)).
    + by rewrite <- Hperm.
    + intros i Hi. apply Hall. by rewrite Hperm.
Qed.

Lemma interface_loops_order_irrelevant_witness :
  [Sample.Mappable; ApplicativeN] ≡ₚ [ApplicativeN; Sample.Mappable]
  /\ for_each [Sample.Mappable; ApplicativeN]
       (fun i => register_type_strategy (KClass i) (Strat (SOpaque 4)))
       Sample.engine_table
     = for_each [ApplicativeN; Sample.Mappable]
         (fun i => register_type_strategy (KClass i) (Strat (SOpaque 4)))
         Sample.engine_table.
Proof.
  assert (Hperm : [Sample.Mappable; ApplicativeN]
                  ≡ₚ [ApplicativeN; Sample.Mappable]) by apply perm_swap.
  split; [exact Hperm|].
  exact (proj1 (interface_loops_order_irrelevant (Strat (SOpaque 4)) _ _
                  Sample.engine_table Hperm)).
Defined.

(** ** Which classes the interface scope binds *)

Lemma maybe_register_container_get_table ct ui r :
  maybe_register_container ct ui get_table r
  = (Ok (container_bound ct ui r), r).
Proof.
  unfold container_bound.
  destruct (r !! KClass (ct_class ct)) as [e|] eqn:Hk.
  - rewrite maybe_register_container_known by eauto. done.
  - rewrite maybe_register_container_unknown by done.
    unfold get_table. rewrite lookup_insert_eq.
    by rewrite delete_insert_eq, delete_id.
Qed.

Lemma container_strategies_get_table ct settings r :
  container_strategies ct settings get_table r
  = (Ok (scope_table ct settings r),
     unbind_classes (our_interfaces ct) (interfaces_bound ct settings r)).
Proof.
  rewrite container_strategies_unfold, maybe_register_container_get_table.
  rewrite for_each_pop;
    [done
    | apply NoDup_our_interfaces
    | intros i Hi; by apply interfaces_bound_is_Some].
Qed.

(** C10. Run with a body that reports the table it finds,
    [container_strategies] shows what it has bound when its body
    starts, and every other body starts in that same table.  There the
    container factory is bound to exactly the classes of the
    method-resolution order whose module name starts with ["returns."]
    (interface or not), whatever they held before.  Any other class
    keeps its entry, except the container's own class when it is
    defined outside the [returns] package: it holds what it held
    before or, if it held nothing, the container factory, which is the
    binding [maybe_register_container] makes on its own.  [Callable]
    and [TypeVar] are left as they were. *)
Theorem container_strategies_binds_returns_classes
    (container_type : Lawful) (settings : _Settings) (r : registry) :
  let factory :=
    Resolver (_create_container_factory container_type (use_init settings)) in
  let own_key := KClass (ct_class container_type) in
  let returns_defined c :=
    bool_decide (c ∈ mro container_type)
    && String.prefix "returns." (getattr_module c) in
  exists at_yield final,
    container_strategies container_type settings get_table r
    = (Ok at_yield, final)
    /\ (forall (A : Type) (body body' : M A),
          body at_yield = body' at_yield ->
          container_strategies container_type settings body r
          = container_strategies container_type settings body' r)
    /\ (forall c,
          at_yield !! KClass c
          = if returns_defined c then Some factory
            else if decide (c = ct_class container_type)
                 then Some (match r !! own_key with
                            | Some previous => previous
                            | None => factory
                            end)
                 else r !! KClass c)
    /\ at_yield !! KCallable = r !! KCallable
    /\ at_yield !! KTypeVar = r !! KTypeVar
    /\ (forall c, returns_defined c = true -> final !! KClass c = None)
    /\ (String.prefix "returns." (getattr_module (ct_class container_type))
        = false ->
        exists alone,
          maybe_register_container container_type (use_init settings)
            get_table r = (Ok alone, r)
          /\ at_yield !! own_key = alone !! own_key).
Proof.
  intros factory own_key returns_defined.
  exists (scope_table container_type settings r),
    (unbind_classes (our_interfaces container_type)
       (interfaces_bound container_type settings r)).
  assert (Hmem : forall c,
             c ∈ our_interfaces container_type <-> returns_defined c = true).
  { intros c. rewrite elem_of_our_interfaces. unfold returns_defined.
    rewrite andb_true_iff, bool_decide_eq_true. done. }
  assert (Hib : forall c,
             interfaces_bound container_type settings r !! KClass c
             = if returns_defined c then Some factory else r !! KClass c).
  { intros c. rewrite lookup_interfaces_bound.
    destruct (returns_defined c) eqn:Hc.
    - rewrite bool_decide_eq_true_2; [done|].
      apply list_elem_of_fmap. exists c. split; [done|]. by apply Hmem.
    - rewrite bool_decide_eq_false_2; [done|].
      intros (c' & [= <-] & Hc')%list_elem_of_fmap.
      apply Hmem in Hc'. congruence. }
  assert (Hlook : forall c,
             scope_table container_type settings r !! KClass c
             = if returns_defined c then Some factory
               else if decide (c = ct_class container_type)
                    then Some (match r !! own_key with
                               | Some previous => previous
                               | None => factory
                               end)
                    else r !! KClass c).
  { intros c. unfold scope_table. rewrite lookup_container_bound.
    destruct (decide (c = ct_class container_type)) as [->|Hne].
    - rewrite decide_True by done. fold own_key. unfold own_key at 1.
      rewrite Hib. by destruct (returns_defined (ct_class container_type)).
    - rewrite decide_False by congruence. apply Hib. }
  split_and!.
  - apply container_strategies_get_table.
  - intros A body body'. apply container_strategies_body_table.
  - exact Hlook.
  - by apply scope_table_other.
  - by apply scope_table_other.
  - intros c Hc. rewrite lookup_unbind_classes, bool_decide_eq_true_2; [done|].
    apply list_elem_of_fmap. exists c. split; [done|]. by apply Hmem.
  - intros Hown. eexists. split.
    + apply maybe_register_container_get_table.
    + unfold own_key. rewrite Hlook, lookup_container_bound.
      unfold returns_defined. rewrite Hown, andb_false_r.
      by rewrite !decide_True.
Qed.

Lemma container_strategies_binds_witness :
  String.prefix "returns." (getattr_module (ct_class Sample.Box)) = false
  /\ exists at_yield final,
       container_strategies Sample.Box Sample.no_settings get_table
         Sample.engine_table = (Ok at_yield, final)
       /\ at_yield !! KClass Sample.Mappable
          = Some (Resolver (_create_container_factory Sample.Box false))
       /\ at_yield !! KClass Sample.box_class
          = Some (Resolver (_create_container_factory Sample.Box false))
       /\ at_yield !! KClass (PyClass (Some "builtins") "object") = None
       /\ at_yield !! KCallable = Some (Strat (SOpaque 0))
       /\ final !! KClass Sample.Mappable = None
       /\ exists alone,
            maybe_register_container Sample.Box false get_table
              Sample.engine_table = (Ok alone, Sample.engine_table)
            /\ alone !! KClass Sample.box_class
               = Some (Resolver (_create_container_factory Sample.Box false)).
Proof.
  split; [reflexivity|].
  destruct sample_engine_table_lookup as (_ & Hfn & _).
  destruct (container_strategies_binds_returns_classes Sample.Box
              Sample.no_settings Sample.engine_table)
    as (at_yield & final & Hrun & _ & Hlook & Hcallable & _ & Hfinal & Hown).
  assert (Hbox : at_yield !! KClass Sample.box_class
                 = Some (Resolver (_create_container_factory Sample.Box
                                     false))).
  { rewrite Hlook. by vm_compute. }
  exists at_yield, final. split_and!.
  - exact Hrun.
  - rewrite Hlook. by vm_compute.
  - exact Hbox.
  - rewrite Hlook. by vm_compute.
  - by rewrite Hcallable.
  - apply Hfinal. by vm_compute.
  - destruct (Hown eq_refl) as (alone & Halone & Heq).
    exists alone. split; [exact Halone|].
    change (KClass (ct_class Sample.Box)) with (KClass Sample.box_class) in Heq.
    by rewrite <- Heq.
Defined.
